(** * SmartFaceTrack client: a shallow embedding of its domain logic

    The repository holds the React/TypeScript front end of an attendance
    system (the FastAPI back end is reached over HTTP and is not part of the
    sources).  This development embeds the pieces of the client that carry
    logic:

    - [NotificationContext]: the notification list and its cached unread
      counter ([markAsRead], [markAllAsRead], [deleteNotification],
      [deleteAllNotifications]);
    - [AttendanceCapture]: [captureAndProcess] and [markAttendance];
    - [Recorder]: the attendance recorder they post to, modelled from the
      specification;
    - [Enrollment]: the capacity gates of the admin enrollment form and of
      the student dashboard, next to a ledger modelled from the
      specification;
    - [Dashboard]: the attendance-rate tile;
    - [AppSession]: the session restore that runs when [App] mounts.

    Conventions.  A JavaScript [number] that holds an identifier, a counter
    or a time in milliseconds is a [Z]; a [number] that holds a score is a
    [Q].  A [Date] is its epoch time in milliseconds, and the string made by
    [toISOString] is kept as that instant ([iso]), since the conversion is
    injective on valid dates.  An [await]ed request is an input of the model:
    the caller says whether it resolved or rejected.  React state setters are
    explicit state passing, applied in the order the handlers finish.  Where
    a handler reads a value that was captured when the component rendered
    (the [notifications] array in [deleteNotification], the row object of a
    click in the dropdown), that value is an argument of its own, next to
    the current state. *)

From Stdlib Require Import ZArith QArith Qround String List Lia Bool.
From stdpp Require Import gmap strings list fin_maps pretty.
Import ListNotations.

(** ** JavaScript values shared by the components *)

Module JS.

(** The result of [Date.prototype.toISOString]: the instant it denotes. *)
Inductive ISOString : Type :=
| iso (epoch_ms : Z).

Definition epoch (s : ISOString) : Z :=
  match s with iso t => t end.

(** Exceptions the modelled code can raise. *)
Inductive Exception : Type :=
| SyntaxError
| TypeError.

(** A computation that returns or throws. *)
Inductive Result (A : Type) : Type :=
| Return (a : A)
| Throw (e : Exception).
Arguments Return {A} a.
Arguments Throw {A} e.

Definition bind {A B : Type} (m : Result A) (k : A -> Result B) : Result B :=
  match m with
  | Return a => k a
  | Throw e => Throw e
  end.

(** [try { body } catch { handler }] *)
Definition try_catch {A : Type} (body : Result A) (handler : Result A)
  : Result A :=
  match body with
  | Return a => Return a
  | Throw _ => handler
  end.

Definition throws {A : Type} (m : Result A) : Prop :=
  exists e, m = Throw e.

(** [x || 0] on an optional score: [undefined] and [0] are both falsy. *)
Definition or_zero (x : option Q) : Q :=
  match x with
  | Some q => if Qeq_bool q 0 then 0%Q else q
  | None => 0%Q
  end.

(** Truthiness of a string: only the empty string is falsy. *)
Definition truthy_string (s : string) : bool :=
  negb (String.eqb s EmptyString).

End JS.

(** [Result] is a monad; stdpp's [x ← m; k] notation sequences it. *)
#[global] Instance Result_ret : MRet JS.Result := @JS.Return.
#[global] Instance Result_bind : MBind JS.Result := fun A B k m => JS.bind m k.

(** ** contexts/NotificationContext.tsx *)

Module NotificationContext.
Import JS.
Local Open Scope Z_scope.

Record Notification : Type := mkNotification {
  id : Z;
  title : string;
  message : string;
  notification_type : string;
  priority : string;
  is_read : bool;
  created_at : ISOString;
  read_at : option ISOString;
  related_entity_type : option string;
  related_entity_id : option Z
}.

(** The provider's state ([useState] cells). *)
Record State : Type := mkState {
  notifications : list Notification;
  unreadCount : Z;
  totalCount : Z;
  isLoading : bool;
  error : option string
}.

(** [useState([])], [useState(0)], [useState(0)], [useState(false)],
    [useState(null)]. *)
Definition initial : State :=
  {| notifications := []; unreadCount := 0; totalCount := 0;
     isLoading := false; error := None |}.

(** [{ ...notif, is_read: true, read_at: new Date().toISOString() }] *)
Definition set_read (now : Z) (notif : Notification) : Notification :=
  {| id := id notif;
     title := title notif;
     message := message notif;
     notification_type := notification_type notif;
     priority := priority notif;
     is_read := true;
     read_at := Some (iso now);
     created_at := created_at notif;
     related_entity_type := related_entity_type notif;
     related_entity_id := related_entity_id notif |}.

Definition with_list (l : list Notification) (unread total : Z) (st : State)
  : State :=
  {| notifications := l; unreadCount := unread; totalCount := total;
     isLoading := isLoading st; error := error st |}.

(** [markAsRead(notificationId)].  [resolved] tells whether
    [courseAPI.markNotificationRead] resolved; on rejection the [catch]
    logs and the state is untouched.  [now] is the clock read by
    [new Date()]. *)
Definition markAsRead (resolved : bool) (now : Z) (notificationId : Z)
    (st : State) : State :=
  if resolved then
    with_list
      (List.map (fun notif =>
                   if id notif =? notificationId then set_read now notif
                   else notif)
                (notifications st))
      (Z.max 0 (unreadCount st - 1))
      (totalCount st)
      st
  else st.

(** [markAllAsRead()] *)
Definition markAllAsRead (resolved : bool) (now : Z) (st : State) : State :=
  if resolved then
    with_list (List.map (set_read now) (notifications st))
              0
              (totalCount st)
              st
  else st.

(** [deleteNotification(notificationId)].  [rendered] is the
    [notifications] array of the render that made the handler: after the
    [await] the handler looks the deleted entry up there, while the list
    and both counters are updated from their current values ([prev]). *)
Definition deleteNotification (resolved : bool)
    (rendered : list Notification) (notificationId : Z)
    (st : State) : State :=
  if resolved then
    let deletedNotification :=
      List.find (fun n => id n =? notificationId) rendered in
    let unread :=
      match deletedNotification with
      | Some n =>
          if negb (is_read n) then Z.max 0 (unreadCount st - 1)
          else unreadCount st
      | None => unreadCount st
      end in
    with_list
      (List.filter (fun n => negb (id n =? notificationId))
                   (notifications st))
      unread
      (totalCount st - 1)
      st
  else st.

(** [deleteAllNotifications()] *)
Definition deleteAllNotifications (resolved : bool) (st : State) : State :=
  if resolved then with_list [] 0 0 st else st.

(** The four operations of the claim, as commands. *)
Inductive Op : Type :=
| MarkAsRead (resolved : bool) (now : Z) (notificationId : Z)
| MarkAllAsRead (resolved : bool) (now : Z)
| DeleteNotification (resolved : bool) (rendered : list Notification)
    (notificationId : Z)
| DeleteAllNotifications (resolved : bool).

Definition step (op : Op) (st : State) : State :=
  match op with
  | MarkAsRead r now nid => markAsRead r now nid st
  | MarkAllAsRead r now => markAllAsRead r now st
  | DeleteNotification r rendered nid => deleteNotification r rendered nid st
  | DeleteAllNotifications r => deleteAllNotifications r st
  end.

Definition run (ops : list Op) (st : State) : State :=
  fold_left (fun s op => step op s) ops st.

(** How a notification list may change: entries are dropped, kept, or
    replaced by an entry of the same [id] that is read whenever the old one
    was.  Order is kept. *)
Inductive evolves : list Notification -> list Notification -> Prop :=
| evolves_nil : evolves [] []
| evolves_drop n l l' : evolves l l' -> evolves (n :: l) l'
| evolves_keep n n' l l' :
    id n' = id n ->
    (is_read n = true -> is_read n' = true) ->
    evolves l l' ->
    evolves (n :: l) (n' :: l').

(** The number of unread entries of a list. *)
Definition unread_in (l : list Notification) : Z :=
  Z.of_nat (List.length (List.filter (fun n => negb (is_read n)) l)).

(** [response.data] of [courseAPI.getNotifications]. *)
Record NotificationsData : Type := mkData {
  data_notifications : list Notification;
  total_count : Z;
  unread_count : Z
}.

(** [fetchNotifications()]; [response] is [None] when the request is
    rejected.  [setIsLoading(true)] and [setError(null)] come first, the
    [finally] clears [isLoading]. *)
Definition fetchNotifications (response : option NotificationsData)
    (st : State) : State :=
  match response with
  | Some data =>
      {| notifications := data_notifications data;
         unreadCount := unread_count data;
         totalCount := total_count data;
         isLoading := false;
         error := None |}
  | None =>
      {| notifications := notifications st;
         unreadCount := unreadCount st;
         totalCount := totalCount st;
         isLoading := false;
         error := Some "Failed to fetch notifications" |}
  end.

(** [refreshUnreadCount()]; a rejection is only logged. *)
Definition refreshUnreadCount (response : option Z) (st : State) : State :=
  match response with
  | Some n => with_list (notifications st) n (totalCount st) st
  | None => st
  end.

(** How far the cached counter is above the unread entries of the list
    (the server counts all notifications, the list holds the first 50). *)
Definition drift (st : State) : Z :=
  unreadCount st - unread_in (notifications st).

End NotificationContext.

(** ** components/NotificationBell.tsx *)

Module NotificationBell.
Import JS NotificationContext.
Local Open Scope Z_scope.

(** [handleNotificationClick(notification)] *)
Definition handleNotificationClick (resolved : bool) (now : Z)
    (notification : Notification) (st : State) : State :=
  if negb (is_read notification) then
    markAsRead resolved now (id notification) st
  else st.

Section FormatTime.

(** [Date.prototype.toLocaleDateString], a built-in that depends on the
    locale. *)
Variable toLocaleDateString : ISOString -> string.

(** [formatTime(dateString)]; [now] is the clock read by [new Date()]. *)
Definition formatTime (now : Z) (dateString : ISOString) : string :=
  let diffInMinutes := (now - epoch dateString) / (1000 * 60) in
  if diffInMinutes <? 1 then "Just now"
  else if diffInMinutes <? 60 then
    String.append (pretty diffInMinutes) "m ago"
  else if diffInMinutes <? 1440 then
    String.append (pretty (diffInMinutes / 60)) "h ago"
  else toLocaleDateString dateString.

End FormatTime.

(** What the user can do in the dropdown.  The rows and their buttons are
    made by one render of the provider's value: a click carries the
    [notifications] array of that render ([rendered]) and the position of
    the row in it, and the handlers test and use the row object of that
    render.  "Mark all read" is rendered when the [unreadCount] of that
    render ([shown]) is positive. *)
Inductive Event : Type :=
| Fetch (response : option NotificationsData)
    (* opening the dropdown, or "Refresh" *)
| ClickRow (resolved : bool) (now : Z)
    (rendered : list Notification) (row : nat)
    (* [handleNotificationClick(notification)] *)
| ClickCheck (resolved : bool) (now : Z)
    (rendered : list Notification) (row : nat)
    (* "Mark as read", rendered when [!notification.is_read] *)
| ClickMarkAll (resolved : bool) (now : Z) (shown : Z)
    (* "Mark all read", rendered when [unreadCount > 0] *)
| ClickDelete (resolved : bool)
    (rendered : list Notification) (row : nat).
    (* "Delete notification" *)

Definition on_event (ev : Event) (st : State) : State :=
  match ev with
  | Fetch response => fetchNotifications response st
  | ClickRow resolved now rendered row =>
      match List.nth_error rendered row with
      | Some notification =>
          handleNotificationClick resolved now notification st
      | None => st
      end
  | ClickCheck resolved now rendered row =>
      match List.nth_error rendered row with
      | Some notification =>
          if negb (is_read notification) then
            markAsRead resolved now (id notification) st
          else st
      | None => st
      end
  | ClickMarkAll resolved now shown =>
      if 0 <? shown then markAllAsRead resolved now st else st
  | ClickDelete resolved rendered row =>
      match List.nth_error rendered row with
      | Some notification =>
          deleteNotification resolved rendered (id notification) st
      | None => st
      end
  end.

Definition handle (evs : list Event) (st : State) : State :=
  fold_left (fun s ev => on_event ev s) evs st.

(** The click was made on the dropdown as rendered from the current state
    (the previous request had settled and the dropdown had rendered
    again). *)
Definition current (ev : Event) (st : State) : Prop :=
  match ev with
  | ClickRow _ _ rendered _ | ClickCheck _ _ rendered _
  | ClickDelete _ rendered _ => rendered = notifications st
  | ClickMarkAll _ _ shown => shown = unreadCount st
  | Fetch _ => True
  end.

(** Every click of a sequence is made on the current dropdown. *)
Fixpoint all_current (evs : list Event) (st : State) : Prop :=
  match evs with
  | [] => True
  | ev :: evs' => current ev st /\ all_current evs' (on_event ev st)
  end.

(** A response whose counter is the number of unread entries it lists,
    each entry with its own [id]. *)
Definition exact (ev : Event) : Prop :=
  match ev with
  | Fetch (Some data) =>
      List.NoDup (List.map id (data_notifications data)) /\
      unread_count data = unread_in (data_notifications data)
  | _ => True
  end.

(** The list shows each notification once and the counter is the number of
    unread entries shown. *)
Definition in_sync (st : State) : Prop :=
  List.NoDup (List.map id (notifications st)) /\
  unreadCount st = unread_in (notifications st).

End NotificationBell.

(** ** components/AttendanceCapture.tsx *)

Module AttendanceCapture.
Import JS.
Local Open Scope Z_scope.

Inductive Role : Type := student | instructor | admin.

(** [User] of services/api.ts (the fields the component reads, and the
    ones that identify a person). *)
Record User : Type := mkUser {
  user_id : Z;
  user_name : string;
  email : string;
  role : Role;
  user_is_active : bool
}.

(** [Course] of services/api.ts. *)
Record Course : Type := mkCourse {
  course_id : Z;
  course_name : string;
  course_code : string;
  instructor_id : Z;
  max_students : Z;
  enrolled_students : list User;
  course_is_active : bool
}.

Inductive FaceStatus : Type := recognized | unknown | processing.

Record DetectedFace : Type := mkFace {
  face_id : string;
  face_name : string;
  face_confidence : Q;
  face_timestamp : ISOString;
  face_status : FaceStatus
}.

(** [sessionStats]; the fields [recognized] and [unknown] carry a suffix
    here, the bare names being the face statuses. *)
Record SessionStats : Type := mkStats {
  totalDetected : Z;
  recognizedCount : Z;
  unknownCount : Z;
  presentStudents : Z
}.

Inductive AttendanceStatus : Type := present | absent | late.

(** The object [markAttendance] posts ([AttendanceData] plus [user_id]). *)
Record AttendanceData : Type := mkAttendance {
  att_user_id : Z;
  att_course_id : string;
  att_course_name : string;
  att_course_code : string;
  att_instructor_id : Z;
  session_start : ISOString;
  session_end : ISOString;
  status : AttendanceStatus;
  confidence : Q;
  face_data : string;
  location : string;
  device_info : string
}.

(** What the component closes over: the signed-in instructor ([user] prop)
    and [navigator.userAgent]. *)
Record Env : Type := mkEnv {
  user : User;
  userAgent : string
}.

Record State : Type := mkState {
  isCapturing : bool;
  selectedCourse : option Course;
  detectedFaces : list DetectedFace;
  sessionStats : SessionStats;
  sessionStartTime : option Z
}.

(** [response.data] of [faceRecognitionAPI.verifyFace]. *)
Record VerifyData : Type := mkVerify {
  matched : bool;
  verified_user : option User;
  verified_confidence : option Q
}.

(** Requests the component sends to the back end. *)
Inductive Request : Type :=
| VerifyFace
| PostAttendance (data : AttendanceData).

(** The inputs of one click on "Capture & Process": whether a frame was
    obtained (video and canvas mounted, 2d context, blob), how
    [verifyFace] settled, and the two clock readings ([new Date()] in
    [markAttendance] and in the [newFace] literal). *)
Record Capture : Type := mkCapture {
  frame : bool;
  verify : option VerifyData;
  mark_now : Z;
  face_now : Z
}.

(** [sessionEnd.setMinutes(sessionEnd.getMinutes() + 1)]: one minute later
    (the local calendar is taken to have no clock change in that minute). *)
Definition plus_one_minute (t : Z) : Z := t + 60000.

(** [markAttendance(userId, confidence)]: the requests it sends.  A
    rejection of the request is caught and logged, so it changes nothing
    else. *)
Definition markAttendance (env : Env) (st : State) (now : Z)
    (userId : Z) (conf : Q) : list Request :=
  match selectedCourse st, sessionStartTime st with
  | Some course, Some start =>
      let sessionEnd := plus_one_minute now in
      [PostAttendance
         {| att_user_id := userId;
            att_course_id := pretty (course_id course);
            att_course_name := course_name course;
            att_course_code := course_code course;
            att_instructor_id := user_id (user env);
            session_start := iso start;
            session_end := iso sessionEnd;
            status := present;
            confidence := conf;
            face_data := EmptyString;
            location := "Classroom";
            device_info := userAgent env |}]
  | _, _ => []
  end.

(** [selectedCourse?.enrolled_students.some(student => student.id ===
    detectedUser.id)]; [undefined] (no course selected) is falsy. *)
Definition isEnrolled (st : State) (detectedUser : User) : bool :=
  match selectedCourse st with
  | Some course =>
      List.existsb (fun s => user_id s =? user_id detectedUser)
                   (enrolled_students course)
  | None => false
  end.

Definition add_face (f : DetectedFace) (stats : SessionStats) (st : State)
  : State :=
  {| isCapturing := isCapturing st;
     selectedCourse := selectedCourse st;
     detectedFaces := detectedFaces st ++ [f];
     sessionStats := stats;
     sessionStartTime := sessionStartTime st |}.

(** [captureAndProcess()]: the new state and the requests sent, in order. *)
Definition captureAndProcess (env : Env) (c : Capture) (st : State)
  : State * list Request :=
  if negb (frame c) then (st, [])
  else
    match verify c with
    | None => (st, [VerifyFace])
    | Some data =>
        let prev := sessionStats st in
        match matched data, verified_user data with
        | true, Some detectedUser =>
            if isEnrolled st detectedUser then
              let sent :=
                markAttendance env st (mark_now c) (user_id detectedUser)
                               (or_zero (verified_confidence data)) in
              let newFace :=
                {| face_id := pretty (user_id detectedUser);
                   face_name := user_name detectedUser;
                   face_confidence := or_zero (verified_confidence data);
                   face_timestamp := iso (face_now c);
                   face_status := recognized |} in
              (add_face newFace
                 {| totalDetected := totalDetected prev + 1;
                    recognizedCount := recognizedCount prev + 1;
                    unknownCount := unknownCount prev;
                    presentStudents := presentStudents prev + 1 |} st,
               VerifyFace :: sent)
            else
              let newFace :=
                {| face_id := "unknown";
                   face_name := "Not enrolled in this course";
                   face_confidence := or_zero (verified_confidence data);
                   face_timestamp := iso (face_now c);
                   face_status := unknown |} in
              (add_face newFace
                 {| totalDetected := totalDetected prev + 1;
                    recognizedCount := recognizedCount prev;
                    unknownCount := unknownCount prev + 1;
                    presentStudents := presentStudents prev |} st,
               [VerifyFace])
        | _, _ =>
            let newFace :=
              {| face_id := "unknown";
                 face_name := "Unknown Person";
                 face_confidence := 0%Q;
                 face_timestamp := iso (face_now c);
                 face_status := unknown |} in
            (add_face newFace
               {| totalDetected := totalDetected prev + 1;
                  recognizedCount := recognizedCount prev;
                  unknownCount := unknownCount prev + 1;
                  presentStudents := presentStudents prev |} st,
             [VerifyFace])
        end
    end.

(** The attendance requests among the requests sent. *)
Definition posted (reqs : list Request) : list AttendanceData :=
  List.flat_map (fun r => match r with
                          | PostAttendance d => [d]
                          | VerifyFace => []
                          end) reqs.

(** A whole session: captures processed one after the other. *)
Fixpoint process (env : Env) (cs : list Capture) (st : State)
  : State * list Request :=
  match cs with
  | [] => (st, [])
  | c :: cs' =>
      let '(st1, sent1) := captureAndProcess env c st in
      let '(st2, sent2) := process env cs' st1 in
      (st2, sent1 ++ sent2)
  end.

(** The key the specification deduplicates on:
    (student_id, course_id, session_window). *)
Definition dedup_key (d : AttendanceData)
  : Z * string * (ISOString * ISOString) :=
  (att_user_id d, att_course_id d, (session_start d, session_end d)).

(** The status rule in the words of the specification: with an acceptance
    [threshold] and a [grace] offset, a capture at [t] in the window
    [[s, e)] is Present up to [s + grace] and Late after it; nothing is
    recorded below the threshold or outside the window. *)
Definition spec_derived_status (threshold : Q) (grace s e t : Z) (conf : Q)
  : option AttendanceStatus :=
  if Qle_bool threshold conf && (s <=? t) && (t <? e) then
    if t <=? s + grace then Some present else Some late
  else None.

(** The component as it mounts: [useState(false)], [useState(null)],
    [useState([])], the zero statistics, [useState(null)]. *)
Definition mounted : State :=
  {| isCapturing := false;
     selectedCourse := None;
     detectedFaces := [];
     sessionStats := mkStats 0 0 0 0;
     sessionStartTime := None |}.

(** [setSelectedCourse(course)] *)
Definition selectCourse (course : Course) (st : State) : State :=
  {| isCapturing := isCapturing st;
     selectedCourse := Some course;
     detectedFaces := detectedFaces st;
     sessionStats := sessionStats st;
     sessionStartTime := sessionStartTime st |}.

(** [startCapture()]; [now] is the clock read for [sessionStartTime].
    Without a course it only alerts.  [startCamera] catches its own
    failure, so the session starts whether or not the camera opened (the
    camera stream is not part of the modelled state). *)
Definition startCapture (now : Z) (st : State) : State :=
  match selectedCourse st with
  | None => st
  | Some _ =>
      {| isCapturing := true;
         selectedCourse := selectedCourse st;
         detectedFaces := [];
         sessionStats := mkStats 0 0 0 0;
         sessionStartTime := Some now |}
  end.

(** [stopCapture()] *)
Definition stopCapture (st : State) : State :=
  {| isCapturing := false;
     selectedCourse := selectedCourse st;
     detectedFaces := detectedFaces st;
     sessionStats := sessionStats st;
     sessionStartTime := None |}.

(** The buttons of the page.  The camera section is rendered when a course
    is selected; it shows "Start Session" when not capturing, and "Stop
    Session" and "Capture & Process" when capturing.  A click on a button
    that is not rendered does nothing. *)
Inductive Click : Type :=
| ClickCourse (course : Course)
| ClickStart (now : Z)
| ClickStop
| ClickCapture (c : Capture).

Definition click (env : Env) (ev : Click) (st : State)
  : State * list Request :=
  match ev, selectedCourse st with
  | ClickCourse course, _ => (selectCourse course st, [])
  | ClickStart now, Some _ =>
      if isCapturing st then (st, []) else (startCapture now st, [])
  | ClickStop, Some _ =>
      if isCapturing st then (stopCapture st, []) else (st, [])
  | ClickCapture c, Some _ =>
      if isCapturing st then captureAndProcess env c st else (st, [])
  | _, None => (st, [])
  end.

Fixpoint clicks (env : Env) (evs : list Click) (st : State)
  : State * list Request :=
  match evs with
  | [] => (st, [])
  | ev :: evs' =>
      let '(st1, sent1) := click env ev st in
      let '(st2, sent2) := clicks env evs' st1 in
      (st2, sent1 ++ sent2)
  end.

Definition is_recognized (f : DetectedFace) : bool :=
  match face_status f with
  | recognized => true
  | _ => false
  end.

(** The four tiles agree with the list of detected faces. *)
Definition tiles_agree (st : State) : Prop :=
  totalDetected (sessionStats st) = Z.of_nat (List.length (detectedFaces st)) /\
  recognizedCount (sessionStats st) =
    Z.of_nat (List.length (List.filter is_recognized (detectedFaces st))) /\
  totalDetected (sessionStats st) =
    recognizedCount (sessionStats st) + unknownCount (sessionStats st) /\
  presentStudents (sessionStats st) = recognizedCount (sessionStats st).

(** While capturing, a course is selected and the session has a start. *)
Definition session_open (st : State) : Prop :=
  isCapturing st = true ->
  selectedCourse st <> None /\ sessionStartTime st <> None.

(** The capture got a frame and the verifier matched a user who is
    enrolled in the selected course. *)
Definition enrolled_match (c : Capture) (st : State) : bool :=
  frame c &&
  match verify c with
  | Some data =>
      matched data &&
      match verified_user data with
      | Some detectedUser => isEnrolled st detectedUser
      | None => false
      end
  | None => false
  end.

End AttendanceCapture.

(** ** The attendance recorder behind [POST /attendance/] *)

Module Recorder.
Import JS AttendanceCapture.
Local Open Scope Z_scope.

(** Modelled from the spec: the failures of [recordAttendance]
    (section 4.2), reported by the back end. *)
Inductive Failure : Type :=
| NotEnrolled
| DuplicateSession.

Definition ISOString_eqb (a b : ISOString) : bool := epoch a =? epoch b.

Definition key_eqb (k1 k2 : Z * string * (ISOString * ISOString)) : bool :=
  let '(s1, c1, (b1, e1)) := k1 in
  let '(s2, c2, (b2, e2)) := k2 in
  (s1 =? s2) && String.eqb c1 c2 && ISOString_eqb b1 b2 && ISOString_eqb e1 e2.

(** Modelled from the spec: [recordAttendance] of the Attendance Recorder
    (section 4.2), which runs in the back end and is not among the sources.
    It fails with [NotEnrolled] if the student has no active enrollment in
    the course, with [DuplicateSession] if a record already exists for
    (student_id, course_id, session_window), and otherwise persists the
    record.  The store keeps the records in the order they were written. *)
Definition recordAttendance (enrolled : Z -> string -> bool)
    (d : AttendanceData) (store : list AttendanceData)
  : Failure + list AttendanceData :=
  if negb (enrolled (att_user_id d) (att_course_id d)) then inl NotEnrolled
  else if List.existsb (fun r => key_eqb (dedup_key r) (dedup_key d)) store
       then inl DuplicateSession
  else inr (store ++ [d]).

(** The requests of a session, recorded one after the other; each item's
    outcome is kept. *)
Fixpoint recordAll (enrolled : Z -> string -> bool)
    (ds : list AttendanceData) (store : list AttendanceData)
  : list AttendanceData * list (option Failure) :=
  match ds with
  | [] => (store, [])
  | d :: ds' =>
      match recordAttendance enrolled d store with
      | inr store' =>
          let '(final, outcomes) := recordAll enrolled ds' store' in
          (final, None :: outcomes)
      | inl f =>
          let '(final, outcomes) := recordAll enrolled ds' store in
          (final, Some f :: outcomes)
      end
  end.

End Recorder.

(** ** components/StudentEnrollment.tsx and components/StudentDashboard.tsx *)

Module Enrollment.
Local Open Scope Z_scope.

(** *** The admin enrollment form (StudentEnrollment.tsx) *)

Record User : Type := mkUser {
  user_id : Z;
  user_name : string;
  email : string;
  role : string;
  department : string;
  student_id : option string
}.

Record Course : Type := mkCourse {
  course_id : Z;
  course_name : string;
  code : string;
  instructor_id : Z;
  course_department : string;
  enrolled_students : list User;
  max_students : Z
}.

Record FormState : Type := mkForm {
  selectedCourse : option Course;
  showEnrollForm : bool;
  selectedStudent : Z
}.

(** [disabled={selectedCourse.enrolled_students.length >=
    selectedCourse.max_students}] on the "Enroll Student" button that opens
    the form. *)
Definition enrollButtonDisabled (course : Course) : bool :=
  max_students course <=? Z.of_nat (List.length (enrolled_students course)).

(** [onClick={() => setShowEnrollForm(true)}]; a disabled button does not
    fire. *)
Definition clickEnrollButton (st : FormState) : FormState :=
  match selectedCourse st with
  | Some course =>
      if enrollButtonDisabled course then st
      else {| selectedCourse := selectedCourse st;
              showEnrollForm := true;
              selectedStudent := selectedStudent st |}
  | None => st
  end.

(** [handleEnrollStudent()]: the request
    [courseAPI.enrollStudent(selectedCourse.id, selectedStudent)] it sends,
    if any ([!selectedStudent] holds for 0). *)
Definition handleEnrollStudent (st : FormState) : option (Z * Z) :=
  match selectedCourse st with
  | Some course =>
      if selectedStudent st =? 0 then None
      else Some (course_id course, selectedStudent st)
  | None => None
  end.

(** [fetchData()] keeps the users whose role is [student]. *)
Definition studentsOf (users : list User) : list User :=
  List.filter (fun user => String.eqb (role user) "student") users.

(** [getInstructorName(instructorId)], which searches [students]. *)
Definition getInstructorName (students : list User) (instructorId : Z)
  : string :=
  match List.find (fun user => user_id user =? instructorId) students with
  | Some instructor => user_name instructor
  | None => "Unknown"
  end.

Section StudentSearch.

(** [String.prototype.toLowerCase] and [String.prototype.includes],
    built-ins. *)
Variable toLowerCase : string -> string.
Variable includes : string -> string -> bool.

(** The search test of [filteredStudents]: the term occurs in the name, in
    the email or in a non-empty student id, case ignored. *)
Definition matchesSearch (searchTerm : string) (student : User) : bool :=
  includes (toLowerCase (user_name student)) (toLowerCase searchTerm) ||
  includes (toLowerCase (email student)) (toLowerCase searchTerm) ||
  match student_id student with
  | Some sid =>
      JS.truthy_string sid &&
      includes (toLowerCase sid) (toLowerCase searchTerm)
  | None => false
  end.

(** [filteredStudents]: the students offered in the form's select. *)
Definition filteredStudents (students : list User)
    (selectedCourse : option Course) (searchTerm : string) : list User :=
  List.filter
    (fun student =>
       negb (match selectedCourse with
             | Some course =>
                 List.existsb (fun enrolled => user_id enrolled =? user_id student)
                              (enrolled_students course)
             | None => false
             end)
       && matchesSearch searchTerm student)
    students.

End StudentSearch.

(** *** The course cards of the student dashboard (StudentDashboard.tsx) *)

Record DashboardCourse : Type := mkDashboardCourse {
  dc_id : Z;
  dc_name : string;
  dc_code : string;
  instructor_name : string;
  dc_is_active : bool;
  dc_max_students : Z;
  enrolled_count : Z;
  available_spots : Z;
  is_enrolled : bool;
  can_enroll : bool
}.

Inductive Handler : Type :=
| handleEnroll (courseId : Z)
| handleUnenroll (courseId : Z).

Record Button : Type := mkButton {
  label : string;
  disabled : bool;
  onClick : Handler
}.

(** The button rendered at the bottom of a course card. *)
Definition courseButton (course : DashboardCourse) : Button :=
  if is_enrolled course then
    {| label := "Unenroll"; disabled := false;
       onClick := handleUnenroll (dc_id course) |}
  else
    {| label := if can_enroll course then "Enroll" else "Full";
       disabled := negb (can_enroll course);
       onClick := handleEnroll (dc_id course) |}.

(** *** The enrollment ledger *)

(** Modelled from the spec: the Enrollment of section 3, kept by the back
    end (not among the sources); unenrolling clears [active] (soft
    delete). *)
Record Row : Type := mkRow {
  row_student : Z;
  active : bool
}.

(** Modelled from the spec: the Course of section 3 as the ledger keeps
    it, with its capacity ([max_students]), its active flag and its
    enrollments in creation order. *)
Record LedgerCourse : Type := mkLedgerCourse {
  capacity : Z;
  is_active : bool;
  rows : list Row
}.

(** Modelled from the spec: the failures of section 7 that the ledger
    reports. *)
Inductive Failure : Type :=
| CapacityExceeded
| AlreadyEnrolled
| CourseInactive
| NotEnrolled
| NotFound.

(** The number of active enrollments of a course. *)
Definition count (c : LedgerCourse) : Z :=
  Z.of_nat (List.length (List.filter active (rows c))).

Definition enrolled_in (s : Z) (c : LedgerCourse) : bool :=
  List.existsb (fun r => active r && (row_student r =? s)) (rows c).

Definition with_rows (l : list Row) (c : LedgerCourse) : LedgerCourse :=
  {| capacity := capacity c; is_active := is_active c; rows := l |}.

(** Modelled from the spec: [enroll(student_id, course_id)] of the
    Enrollment Ledger (section 4.1); the back end that implements it is not
    among the sources.  It fails with [CapacityExceeded] if the active
    enrollment count is at least [max_students] (here [capacity]), with
    [AlreadyEnrolled] if the pair exists and is active, with
    [CourseInactive] if the course is not active, and otherwise creates an
    enrollment (appended, as the roster is kept in insertion order). *)
Definition enroll (s cid : Z) (L : gmap Z LedgerCourse)
  : Failure + gmap Z LedgerCourse :=
  match L !! cid with
  | None => inl NotFound
  | Some c =>
      if capacity c <=? count c then inl CapacityExceeded
      else if enrolled_in s c then inl AlreadyEnrolled
      else if negb (is_active c) then inl CourseInactive
      else inr (<[cid := with_rows (rows c ++ [mkRow s true]) c]> L)
  end.

(** Modelled from the spec: [unenroll(student_id, course_id)] of the
    Enrollment Ledger (section 4.1), absent from the sources like [enroll].
    It fails with [NotEnrolled] if no active enrollment exists and
    otherwise marks the enrollment inactive. *)
Definition unenroll (s cid : Z) (L : gmap Z LedgerCourse)
  : Failure + gmap Z LedgerCourse :=
  match L !! cid with
  | None => inl NotFound
  | Some c =>
      if enrolled_in s c then
        inr (<[cid :=
                 with_rows
                   (List.map (fun r =>
                                if active r && (row_student r =? s)
                                then mkRow (row_student r) false
                                else r)
                             (rows c)) c]> L)
      else inl NotEnrolled
  end.

Inductive Action : Type :=
| Enroll (s cid : Z)
| Unenroll (s cid : Z).

(** A call on the ledger; a failed call leaves the ledger as it was. *)
Definition perform (a : Action) (L : gmap Z LedgerCourse) : gmap Z LedgerCourse :=
  match (match a with
         | Enroll s cid => enroll s cid L
         | Unenroll s cid => unenroll s cid L
         end) with
  | inr L' => L'
  | inl _ => L
  end.

Definition run (acts : list Action) (L : gmap Z LedgerCourse)
  : gmap Z LedgerCourse :=
  fold_left (fun l a => perform a l) acts L.

Definition within_capacity (L : gmap Z LedgerCourse) : Prop :=
  forall cid c, L !! cid = Some c -> count c <= capacity c.

End Enrollment.

(** ** The attendance-rate tile of components/StudentDashboard.tsx *)

Module Dashboard.
Local Open Scope Z_scope.

Record AttendanceStats : Type := mkStats {
  total_sessions : Z;
  present_count : Z;
  absent_count : Z;
  late_count : Z;
  attendance_rate : Q
}.

Section Tile.

(** [Number.prototype.toFixed] with one digit, a built-in on doubles. *)
Variable toFixed1 : Q -> string.

(** [{attendanceStats ? `${attendanceStats.attendance_rate.toFixed(1)}%` :
    '0%'}] *)
Definition attendanceRateTile (attendanceStats : option AttendanceStats)
  : string :=
  match attendanceStats with
  | Some stats => String.append (toFixed1 (attendance_rate stats)) "%"
  | None => "0%"
  end.

End Tile.

(** [{attendanceStats ? attendanceStats.total_sessions : 0}] *)
Definition totalSessionsTile (attendanceStats : option AttendanceStats) : Z :=
  match attendanceStats with
  | Some stats => total_sessions stats
  | None => 0
  end.

(** [{attendanceStats ? attendanceStats.present_count : 0}] *)
Definition presentDaysTile (attendanceStats : option AttendanceStats) : Z :=
  match attendanceStats with
  | Some stats => present_count stats
  | None => 0
  end.

(** Modelled from the spec: the division the Dashboard Aggregator
    (section 4.4) has to guard, an error ("division by zero") when the
    divisor is 0; the back end that computes the statistics behind
    [GET /attendance/stats/{id}] is not among the sources.  [None] is the
    error. *)
Definition divide (a b : Z) : option Q :=
  if b =? 0 then None else Some (inject_Z a / inject_Z b)%Q.

(** Modelled from the spec: [attendanceRate] of the Dashboard Aggregator
    (section 4.4), computed by the back end behind
    [GET /attendance/stats/{id}], which is not among the sources:
    [present_count / total_sessions_for_enrolled_courses], and 0 when
    [total_sessions] is 0.  [None] is an error. *)
Definition attendanceRate (present_count total_sessions : Z) : option Q :=
  if total_sessions =? 0 then Some 0%Q
  else divide present_count total_sessions.

End Dashboard.

(** ** App.tsx: the stored session *)

Module AppSession.
Import JS.

(** A value [JSON.parse] can return.  An object lists its own properties,
    one entry per key. *)
#[local] Unset Elimination Schemes.
Inductive JSON : Type :=
| JNull
| JBool (b : bool)
| JNumber (q : Q)
| JString (s : string)
| JArray (items : list JSON)
| JObject (fields : list (string * JSON)).
#[local] Set Elimination Schemes.

(** [!!v] *)
Definition truthy (v : JSON) : bool :=
  match v with
  | JNull => false
  | JBool b => b
  | JNumber q => negb (Qeq_bool q 0)
  | JString s => truthy_string s
  | JArray _ => true
  | JObject _ => true
  end.

(** [v[key]] for a key that no prototype defines (such as [name]):
    [None] is [undefined]. *)
Definition get (v : JSON) (key : string) : option JSON :=
  match v with
  | JObject fields =>
      match List.find (fun kv => String.eqb (fst kv) key) fields with
      | Some kv => Some (snd kv)
      | None => None
      end
  | _ => None
  end.

(** [user.name.charAt(0)]: a [TypeError] unless [user.name] is a string
    ([undefined] and [null] have no properties, and no other JSON value has
    a callable [charAt]). *)
Definition name_initial (user : JSON) : Result string :=
  match get user "name" with
  | Some (JString s) => Return (substring 0 1 s)
  | _ => Throw TypeError
  end.

Definition user_key : string := "smartfacetrack_user".

Record State : Type := mkState {
  user : JSON;
  currentView : string;
  isSidebarOpen : bool
}.

(** [useState<User | null>(null)], [useState('dashboard')],
    [useState(false)]. *)
Definition initial : State :=
  {| user := JNull; currentView := "dashboard"; isSidebarOpen := false |}.

Definition setUser (v : JSON) (st : State) : State :=
  {| user := v; currentView := currentView st;
     isSidebarOpen := isSidebarOpen st |}.

Inductive View : Type :=
| AuthPage
| MainLayout.

(** What the body of [App] returns for the current state: the auth page
    when [!user]; otherwise the main layout, whose header evaluates
    [user.name.charAt(0).toUpperCase()] while the element tree is built. *)
Definition render (st : State) : Result View :=
  if negb (truthy (user st)) then Return AuthPage
  else _ ← name_initial (user st); Return MainLayout.

Section Restore.

(** [JSON.parse], a built-in: it returns the parsed value or throws a
    [SyntaxError]. *)
Variable JSON_parse : string -> Result JSON.

(** The effect [App] runs once after mounting, on the state and
    [localStorage]. *)
Definition restore (st : State) (localStorage : gmap string string)
  : Result (State * gmap string string) :=
  match localStorage !! user_key with
  | Some storedUser =>
      if truthy_string storedUser then
        try_catch
          (parsed ← JSON_parse storedUser;
           Return (setUser parsed st, localStorage))
          (Return (st, delete user_key localStorage))
      else Return (st, localStorage)
  | None => Return (st, localStorage)
  end.

(** Application start: first render, mount effect, render of the restored
    state. *)
Definition start (localStorage : gmap string string)
  : Result (View * gmap string string) :=
  _ ← render initial;
  restored ← restore initial localStorage;
  view ← render (fst restored);
  Return (view, snd restored).

End Restore.

End AppSession.


(** ** App.tsx: navigation, views, login and logout *)

Module App.
Import JS AppSession.

Definition token_key : string := "smartfacetrack_token".

Inductive Icon : Type := BarChart3 | Users | Camera | BookOpen | Settings.

Record NavItem : Type := mkItem {
  item_id : string;
  item_label : string;
  item_icon : Icon
}.

(** [user?.role === r] *)
Definition has_role (user : JSON) (r : string) : bool :=
  match get user "role" with
  | Some (JString s) => String.eqb s r
  | _ => false
  end.

(** [items.splice(start, 0, x)] *)
Definition splice (start : nat) (x : NavItem) (items : list NavItem)
  : list NavItem :=
  List.firstn start items ++ x :: List.skipn start items.

(** [getNavItems()] *)
Definition getNavItems (user : JSON) : list NavItem :=
  let baseItems :=
    [mkItem "dashboard" "Dashboard" BarChart3;
     mkItem "profile" "Profile" Users] in
  let baseItems :=
    if has_role user "instructor" then
      splice 1 (mkItem "attendance" "Take Attendance" Camera) baseItems
    else baseItems in
  if has_role user "admin" then
    splice 1 (mkItem "courses" "Course Management" BookOpen) baseItems
    ++ [mkItem "settings" "Settings" Settings]
  else baseItems.

Inductive Component : Type :=
| StudentDashboard
| InstructorDashboard
| AdminDashboard
| AttendanceCapture
| CourseManagement
| ProfileManagement.

(** [renderCurrentView()]; [None] is [null] or [undefined], which renders
    nothing. *)
Definition renderCurrentView (st : State) : option Component :=
  if negb (truthy (user st)) then None
  else if String.eqb (currentView st) "dashboard" then
    if has_role (user st) "student" then Some StudentDashboard
    else if has_role (user st) "instructor" then Some InstructorDashboard
    else if has_role (user st) "admin" then Some AdminDashboard
    else None
  else if String.eqb (currentView st) "attendance" then Some AttendanceCapture
  else if String.eqb (currentView st) "courses" then
    if has_role (user st) "admin" then Some CourseManagement else None
  else if String.eqb (currentView st) "profile" then Some ProfileManagement
  else if String.eqb (currentView st) "settings" then Some AdminDashboard
  else Some StudentDashboard.

(** The [onClick] of a navigation button. *)
Definition navigate (item : NavItem) (st : State) : State :=
  {| user := user st; currentView := item_id item; isSidebarOpen := false |}.

Section Handlers.

(** [JSON.stringify], a built-in. *)
Variable JSON_stringify : JSON -> string.

(** [handleLogin(userData)], on the state and [localStorage]. *)
Definition handleLogin (userData : JSON) (w : State * gmap string string)
  : State * gmap string string :=
  (setUser userData (fst w),
   <[user_key := JSON_stringify userData]> (snd w)).

(** [handleLogout()] *)
Definition handleLogout (w : State * gmap string string)
  : State * gmap string string :=
  ({| user := JNull; currentView := "dashboard";
      isSidebarOpen := isSidebarOpen (fst w) |},
   delete token_key (delete user_key (snd w))).

(** The end of a successful [handleSubmit] of the auth page: the token and
    the user are stored, then [onLogin(data.user)] runs [handleLogin]. *)
Definition loggedIn (access_token : string) (userData : JSON)
    (w : State * gmap string string) : State * gmap string string :=
  handleLogin userData
    (fst w,
     <[user_key := JSON_stringify userData]>
       (<[token_key := access_token]> (snd w))).

(** What the user can do.  The auth page is rendered when [!user], the
    navigation and "Sign Out" otherwise; a navigation button is named by
    its position. *)
Inductive Event : Type :=
| LogIn (access_token : string) (userData : JSON)
| SignOut
| Navigate (position : nat).

Definition on_event (ev : Event) (w : State * gmap string string)
  : State * gmap string string :=
  match ev with
  | LogIn access_token userData =>
      if truthy (user (fst w)) then w else loggedIn access_token userData w
  | SignOut =>
      if truthy (user (fst w)) then handleLogout w else w
  | Navigate position =>
      if truthy (user (fst w)) then
        match List.nth_error (getNavItems (user (fst w))) position with
        | Some item => (navigate item (fst w), snd w)
        | None => w
        end
      else w
  end.

Definition handle (evs : list Event) (w : State * gmap string string)
  : State * gmap string string :=
  fold_left (fun w ev => on_event ev w) evs w.

End Handlers.

(** The view is one the navigation offers to the user, and the dashboard
    when nobody is signed in. *)
Definition view_offered (st : State) : Prop :=
  if truthy (user st) then
    In (currentView st) (List.map item_id (getNavItems (user st)))
  else currentView st = "dashboard".

(** The role a component is meant for. *)
Definition meant_for (c : Component) (user : JSON) : bool :=
  match c with
  | StudentDashboard => has_role user "student"
  | InstructorDashboard | AttendanceCapture => has_role user "instructor"
  | AdminDashboard | CourseManagement => has_role user "admin"
  | ProfileManagement => true
  end.

End App.

(** ** services/api.ts: the request and response interceptors *)

Module Api.
Import JS.

(** The request interceptor, on [localStorage] and [config.headers]. *)
Definition requestInterceptor (localStorage headers : gmap string string)
  : gmap string string :=
  match localStorage !! App.token_key with
  | Some token =>
      if truthy_string token then
        <["Authorization" := String.append "Bearer " token]> headers
      else headers
  | None => headers
  end.

(** The error branch of the response interceptor: the new [localStorage]
    and the address assigned to [window.location.href], if any.  [status]
    is [error.response?.status]; the error is rejected again in all
    cases. *)
Definition responseRejected (status : option Z)
    (localStorage : gmap string string)
  : gmap string string * option string :=
  match status with
  | Some 401%Z =>
      (delete AppSession.user_key (delete App.token_key localStorage),
       Some "/")
  | _ => (localStorage, None)
  end.

Definition setAuthToken (token : string) (localStorage : gmap string string)
  : gmap string string :=
  <[App.token_key := token]> localStorage.

Definition getAuthToken (localStorage : gmap string string) : option string :=
  localStorage !! App.token_key.

Definition removeAuthToken (localStorage : gmap string string)
  : gmap string string :=
  delete AppSession.user_key (delete App.token_key localStorage).

(** A storage that holds no session: neither key is present, the
    application starts on the auth page, and requests carry no
    [Authorization] header. *)
Definition signed_out (JSON_parse : string -> Result AppSession.JSON)
    (localStorage : gmap string string) : Prop :=
  localStorage !! AppSession.user_key = None /\
  localStorage !! App.token_key = None /\
  AppSession.start JSON_parse localStorage
    = Return (AppSession.AuthPage, localStorage) /\
  forall headers, requestInterceptor localStorage headers = headers.

End Api.

(** ** components/CourseManagement.tsx: the course form *)

Module CourseManagement.
Local Open Scope Z_scope.

(** What the form holds for [instructor_id]: the number 0 at first and the
    course's number after [handleEdit], the string value of the chosen
    option after a change of the select. *)
Inductive FieldValue : Type :=
| Num (n : Z)
| Str (s : string).

(** [!!v] *)
Definition truthy (v : FieldValue) : bool :=
  match v with
  | Num n => negb (n =? 0)
  | Str s => JS.truthy_string s
  end.

Record CourseFormData : Type := mkFormData {
  name : string;
  code : string;
  instructor_id : FieldValue;
  department : string;
  description : string;
  schedule : string;
  room : string;
  max_students : Z;
  semester : string;
  academic_year : string
}.

(** [Course], with the fields the form reads. *)
Record Course : Type := mkCourse {
  course_id : Z;
  course_name : string;
  course_code : string;
  course_instructor_id : Z;
  course_department : string;
  course_description : option string;
  course_schedule : option string;
  course_room : option string;
  course_max_students : Z;
  course_semester : string;
  course_academic_year : string
}.

Record State : Type := mkState {
  showForm : bool;
  editingCourse : option Course;
  formData : CourseFormData
}.

(** The initial form, which [resetForm] restores. *)
Definition blankForm : CourseFormData :=
  {| name := EmptyString; code := EmptyString; instructor_id := Num 0;
     department := EmptyString; description := EmptyString;
     schedule := EmptyString; room := EmptyString; max_students := 50;
     semester := "Fall 2024"; academic_year := "2024-2025" |}.

(** [resetForm()] *)
Definition resetForm (st : State) : State :=
  {| showForm := showForm st; editingCourse := None; formData := blankForm |}.

(** The [name] attributes of the form's inputs. *)
Inductive Field : Type :=
| f_name | f_code | f_instructor_id | f_department | f_description
| f_schedule | f_room | f_max_students | f_semester | f_academic_year.

(** [x || ''] on an optional string. *)
Definition or_empty (x : option string) : string :=
  match x with
  | Some s => s
  | None => EmptyString
  end.

(** [handleEdit(course)] *)
Definition handleEdit (course : Course) (st : State) : State :=
  {| showForm := true;
     editingCourse := Some course;
     formData :=
       {| name := course_name course;
          code := course_code course;
          instructor_id := Num (course_instructor_id course);
          department := course_department course;
          description := or_empty (course_description course);
          schedule := or_empty (course_schedule course);
          room := or_empty (course_room course);
          max_students := course_max_students course;
          semester := course_semester course;
          academic_year := course_academic_year course |} |}.

(** The requests of the page. *)
Inductive Request : Type :=
| CreateCourse (data : CourseFormData)
| UpdateCourse (courseId : Z) (data : CourseFormData)
| FetchData.

Section Builtins.

(** [String.prototype.trim] and [parseInt], built-ins; [parseInt] gives
    [None] for [NaN]. *)
Variable trim : string -> string.
Variable parseInt : string -> option Z.

(** [parseInt(value) || 50] *)
Definition parsed_or_50 (value : string) : Z :=
  match parseInt value with
  | Some n => if n =? 0 then 50 else n
  | None => 50
  end.

(** [handleInputChange(e)] with [e.target.name = field] and
    [e.target.value = value]. *)
Definition handleInputChange (field : Field) (value : string)
    (prev : CourseFormData) : CourseFormData :=
  {| name := match field with f_name => value | _ => name prev end;
     code := match field with f_code => value | _ => code prev end;
     instructor_id :=
       match field with
       | f_instructor_id => Str value
       | _ => instructor_id prev
       end;
     department :=
       match field with f_department => value | _ => department prev end;
     description :=
       match field with f_description => value | _ => description prev end;
     schedule := match field with f_schedule => value | _ => schedule prev end;
     room := match field with f_room => value | _ => room prev end;
     max_students :=
       match field with
       | f_max_students => parsed_or_50 value
       | _ => max_students prev
       end;
     semester := match field with f_semester => value | _ => semester prev end;
     academic_year :=
       match field with
       | f_academic_year => value
       | _ => academic_year prev
       end |}.

Definition blank (s : string) : bool := String.eqb (trim s) EmptyString.

(** [validateForm()]: the message it alerts, or [None] when it returns
    [true]. *)
Definition validateForm (data : CourseFormData) : option string :=
  if blank (name data) then Some "Course name is required"
  else if blank (code data) then Some "Course code is required"
  else if negb (truthy (instructor_id data)) then
    Some "Please select an instructor"
  else if blank (department data) then Some "Department is required"
  else if blank (semester data) then Some "Semester is required"
  else if blank (academic_year data) then Some "Academic year is required"
  else None.

(** [handleSubmit(e)]: the new state and the requests sent.  [resolved]
    tells whether the save request resolved. *)
Definition handleSubmit (resolved : bool) (st : State)
  : State * list Request :=
  match validateForm (formData st) with
  | Some _ => (st, [])
  | None =>
      let save :=
        match editingCourse st with
        | Some course => UpdateCourse (course_id course) (formData st)
        | None => CreateCourse (formData st)
        end in
      if resolved then
        (resetForm {| showForm := false;
                      editingCourse := editingCourse st;
                      formData := formData st |},
         [save; FetchData])
      else (st, [save])
  end.

End Builtins.

End CourseManagement.

(** ** components/StudentDashboard.tsx: loading the page and the course
    cards *)

Module StudentDashboard.
Import JS.
Local Open Scope Z_scope.

Inductive RecordStatus : Type := present | absent | late.

Record AttendanceRecord : Type := mkRecord {
  record_id : Z;
  course_name : string;
  course_code : string;
  session_start : ISOString;
  session_end : ISOString;
  status : RecordStatus;
  instructor_id : Z;
  created_at : ISOString
}.

Record State : Type := mkState {
  attendanceRecords : list AttendanceRecord;
  courses : list AttendanceCapture.Course;
  dashboardCourses : list Enrollment.DashboardCourse;
  attendanceStats : option Dashboard.AttendanceStats;
  isLoading : bool;
  error : option string
}.

(** The component as it mounts. *)
Definition mounted : State :=
  {| attendanceRecords := []; courses := []; dashboardCourses := [];
     attendanceStats := None; isLoading := true; error := None |}.

Inductive Request : Type :=
| GetUserAttendance (userId : Z)
| GetStudentCourses (userId : Z)
| GetStudentDashboardCourses
| GetAttendanceStats (userId : Z)
| SelfEnroll (courseId : Z)
| SelfUnenroll (courseId : Z).

(** How the four requests of [fetchDashboardData] settle ([None] is a
    rejection); a request after a rejected one is never sent and its entry
    is not consulted. *)
Record Responses : Type := mkResponses {
  attendanceResponse : option (list AttendanceRecord);
  coursesResponse : option (list AttendanceCapture.Course);
  dashboardResponse : option (list Enrollment.DashboardCourse);
  statsResponse : option Dashboard.AttendanceStats
}.

Definition failed (st : State) : State :=
  {| attendanceRecords := attendanceRecords st;
     courses := courses st;
     dashboardCourses := dashboardCourses st;
     attendanceStats := attendanceStats st;
     isLoading := false;
     error := Some "Failed to load dashboard data" |}.

(** [fetchDashboardData()]: the new state and the requests sent. *)
Definition fetchDashboardData (userId : Z) (r : Responses) (st : State)
  : State * list Request :=
  match attendanceResponse r with
  | None => (failed st, [GetUserAttendance userId])
  | Some records =>
      let st1 :=
        {| attendanceRecords := records; courses := courses st;
           dashboardCourses := dashboardCourses st;
           attendanceStats := attendanceStats st;
           isLoading := true; error := None |} in
      match coursesResponse r with
      | None =>
          (failed st1, [GetUserAttendance userId; GetStudentCourses userId])
      | Some cs =>
          let st2 :=
            {| attendanceRecords := records; courses := cs;
               dashboardCourses := dashboardCourses st;
               attendanceStats := attendanceStats st;
               isLoading := true; error := None |} in
          match dashboardResponse r with
          | None =>
              (failed st2,
               [GetUserAttendance userId; GetStudentCourses userId;
                GetStudentDashboardCourses])
          | Some ds =>
              let st3 :=
                {| attendanceRecords := records; courses := cs;
                   dashboardCourses := ds;
                   attendanceStats := attendanceStats st;
                   isLoading := true; error := None |} in
              match statsResponse r with
              | None =>
                  (failed st3,
                   [GetUserAttendance userId; GetStudentCourses userId;
                    GetStudentDashboardCourses; GetAttendanceStats userId])
              | Some stats =>
                  ({| attendanceRecords := records; courses := cs;
                      dashboardCourses := ds;
                      attendanceStats := Some stats;
                      isLoading := false; error := None |},
                   [GetUserAttendance userId; GetStudentCourses userId;
                    GetStudentDashboardCourses; GetAttendanceStats userId])
              end
          end
      end
  end.

(** All four requests resolved. *)
Definition all_resolved (r : Responses) : bool :=
  match attendanceResponse r, coursesResponse r,
        dashboardResponse r, statsResponse r with
  | Some _, Some _, Some _, Some _ => true
  | _, _, _, _ => false
  end.

Inductive Screen : Type := Spinner | ErrorScreen | DashboardScreen.

(** What the component returns: the spinner while loading, the error
    screen when [error] is set, the dashboard otherwise. *)
Definition screen (st : State) : Screen :=
  if isLoading st then Spinner
  else match error st with
       | Some _ => ErrorScreen
       | None => DashboardScreen
       end.

(** A click on the button of a course card: the request [handleEnroll] or
    [handleUnenroll] sends; a disabled button does not fire. *)
Definition clickCourseButton (course : Enrollment.DashboardCourse)
  : list Request :=
  let button := Enrollment.courseButton course in
  if Enrollment.disabled button then []
  else match Enrollment.onClick button with
       | Enrollment.handleEnroll courseId => [SelfEnroll courseId]
       | Enrollment.handleUnenroll courseId => [SelfUnenroll courseId]
       end.

End StudentDashboard.

(** ** Sample data used by the examples *)

Module Samples.
Import JS.
Local Open Scope Z_scope.

Definition note (i : Z) (read : bool) (at_ : option ISOString)
  : NotificationContext.Notification :=
  {| NotificationContext.id := i;
     NotificationContext.title := "Attendance";
     NotificationContext.message := "Attendance confirmed";
     NotificationContext.notification_type := "attendance_confirmed";
     NotificationContext.priority := "medium";
     NotificationContext.is_read := read;
     NotificationContext.created_at := iso 0;
     NotificationContext.read_at := at_;
     NotificationContext.related_entity_type := None;
     NotificationContext.related_entity_id := None |}.

(** Two unread notifications, and a counter that agrees with the list. *)
Definition two_unread : NotificationContext.State :=
  {| NotificationContext.notifications := [note 1 false None; note 2 false None];
     NotificationContext.unreadCount := 2;
     NotificationContext.totalCount := 2;
     NotificationContext.isLoading := false;
     NotificationContext.error := None |}.

(** The scenario of the specification: course C101, a session declared at
    10:00 with a five-minute grace offset and an acceptance threshold of
    0.8; times are milliseconds since midnight. *)
Definition t_1000 : Z := 36000000.
Definition t_1003 : Z := 36180000.
Definition t_1012 : Z := 36720000.
Definition t_1020 : Z := 37200000.
Definition t_1030 : Z := 37800000.
Definition grace_5min : Z := 300000.
Definition threshold : Q := 8 # 10.

Definition alice : AttendanceCapture.User :=
  AttendanceCapture.mkUser 7 "Alice" "alice@example.edu"
    AttendanceCapture.student true.

Definition bob : AttendanceCapture.User :=
  AttendanceCapture.mkUser 8 "Bob" "bob@example.edu"
    AttendanceCapture.student true.

Definition teacher : AttendanceCapture.User :=
  AttendanceCapture.mkUser 3 "Carol" "carol@example.edu"
    AttendanceCapture.instructor true.

Definition c101 : AttendanceCapture.Course :=
  AttendanceCapture.mkCourse 101 "Algorithms" "C101" 3 50 [alice] true.

Definition env0 : AttendanceCapture.Env :=
  AttendanceCapture.mkEnv teacher "Mozilla/5.0".

(** The component right after "Start Session" at 10:00. *)
Definition session_1000 : AttendanceCapture.State :=
  {| AttendanceCapture.isCapturing := true;
     AttendanceCapture.selectedCourse := Some c101;
     AttendanceCapture.detectedFaces := [];
     AttendanceCapture.sessionStats := AttendanceCapture.mkStats 0 0 0 0;
     AttendanceCapture.sessionStartTime := Some t_1000 |}.

(** A click at time [t] on which the verifier matches [u] with score [q]. *)
Definition sees (u : AttendanceCapture.User) (q : Q) (t : Z)
  : AttendanceCapture.Capture :=
  {| AttendanceCapture.frame := true;
     AttendanceCapture.verify :=
       Some (AttendanceCapture.mkVerify true (Some u) (Some q));
     AttendanceCapture.mark_now := t;
     AttendanceCapture.face_now := t |}.

(** A course card as the dashboard endpoint may send it: the course is
    closed, 3 of 50 places are taken, and the server says the student
    cannot enroll. *)
Definition closed_course : Enrollment.DashboardCourse :=
  {| Enrollment.dc_id := 101;
     Enrollment.dc_name := "Algorithms";
     Enrollment.dc_code := "C101";
     Enrollment.instructor_name := "Carol";
     Enrollment.dc_is_active := false;
     Enrollment.dc_max_students := 50;
     Enrollment.enrolled_count := 3;
     Enrollment.available_spots := 47;
     Enrollment.is_enrolled := false;
     Enrollment.can_enroll := false |}.

Definition some_student (i : Z) : Enrollment.User :=
  Enrollment.mkUser i "Student" "student@example.edu" "student" "CS" None.

(** A course of two places, both taken, as the admin form holds it. *)
Definition full_course : Enrollment.Course :=
  Enrollment.mkCourse 101 "Algorithms" "C101" 3 "CS"
    [some_student 1; some_student 2] 2.

(** The scenario of the specification: a course with [max_students = 2]
    and nobody enrolled. *)
Definition ledger_of_two : gmap Z Enrollment.LedgerCourse :=
  {[ 101%Z := Enrollment.mkLedgerCourse 2 true [] ]}.

(** [JSON.parse] on the one text the example stores: the text of the empty
    object parses to the empty object.  No other text is consulted; they
    are rejected here. *)
Definition parse_empty_object (text : string) : Result AppSession.JSON :=
  if String.eqb text "{}" then Return (AppSession.JObject [])
  else Throw SyntaxError.

(** A parser that rejects every text, for a store that holds no JSON. *)
Definition parse_nothing (text : string) : Result AppSession.JSON :=
  Throw SyntaxError.

(** Users as the admin pages load them. *)
Definition users : list Enrollment.User :=
  [some_student 1; some_student 2;
   Enrollment.mkUser 3 "Carol" "carol@example.edu" "instructor" "CS" None].

(** Stand-ins for the string built-ins in examples: no case folding, and a
    search that accepts every student. *)
Definition same_case (s : string) : string := s.
Definition always_found (s t : string) : bool := true.

(** A signed-in instructor as [JSON.parse] returns her, and a serializer
    and parser that agree on her. *)
Definition carol : AppSession.JSON :=
  AppSession.JObject
    [("id", AppSession.JNumber 3);
     ("name", AppSession.JString "Carol");
     ("role", AppSession.JString "instructor")].

Definition stringify_carol (v : AppSession.JSON) : string := "carol".

Definition parse_carol (text : string) : Result AppSession.JSON :=
  if String.eqb text "carol" then Return carol else Throw SyntaxError.

(** Stand-ins for [trim] and [parseInt] in examples: text without
    surrounding blanks, and input that is not a number. *)
Definition no_trim (s : string) : string := s.
Definition not_a_number (s : string) : option Z := None.

(** The course form filled in, the instructor select not yet touched. *)
Definition typed_form : CourseManagement.State :=
  {| CourseManagement.showForm := true;
     CourseManagement.editingCourse := None;
     CourseManagement.formData :=
       CourseManagement.mkFormData "Algorithms" "C101"
         (CourseManagement.Num 0) "CS" EmptyString EmptyString EmptyString
         50 "Fall 2024" "2024-2025" |}.

(** A course as the course list holds it, without the optional texts. *)
Definition listed_course : CourseManagement.Course :=
  CourseManagement.mkCourse 101 "Algorithms" "C101" 3 "CS" None None None
    50 "Fall 2024" "2024-2025".

(** The dashboard requests of a student whose statistics request fails. *)
Definition stats_rejected : StudentDashboard.Responses :=
  StudentDashboard.mkResponses (Some []) (Some [c101]) (Some [closed_course])
    None.

End Samples.

(** * Properties *)

(** ** The notification list and its unread counter *)

Module NotificationProps.
Import JS NotificationContext.
Local Open Scope Z_scope.

Lemma rejected_is_noop (op : Op) (st : State) :
  match op with
  | MarkAsRead r _ _ | MarkAllAsRead r _
  | DeleteNotification r _ _ | DeleteAllNotifications r => r = false
  end ->
  step op st = st.
Proof. destruct op; simpl; intros ->; reflexivity. Qed.

Lemma run_app (ops1 ops2 : list Op) (st : State) :
  run (ops1 ++ ops2) st = run ops2 (run ops1 st).
Proof. unfold run. apply fold_left_app. Qed.

Lemma run_cons (op : Op) (ops : list Op) (st : State) :
  run (op :: ops) st = run ops (step op st).
Proof. reflexivity. Qed.

(** *** The list only evolves *)

Lemma evolves_refl (l : list Notification) : evolves l l.
Proof.
  induction l as [|n l IH]; [constructor|].
  apply evolves_keep; auto.
Qed.

Lemma evolves_trans (l1 l2 l3 : list Notification) :
  evolves l1 l2 -> evolves l2 l3 -> evolves l1 l3.
Proof.
  intros H12. revert l3.
  induction H12 as [|n l l' _ IH|n n' l l' Hid Hrd _ IH]; intros l3 H23.
  - exact H23.
  - apply evolves_drop. auto.
  - inversion H23 as [|m k k' Hk|m m' k k' Hid' Hrd' Hk]; subst.
    + apply evolves_drop. auto.
    + apply evolves_keep; [congruence|auto|auto].
Qed.

Lemma evolves_map (f : Notification -> Notification) (l : list Notification) :
  (forall n, id (f n) = id n) ->
  (forall n, is_read n = true -> is_read (f n) = true) ->
  evolves l (List.map f l).
Proof.
  intros Hid Hrd. induction l as [|n l IH]; simpl; [constructor|].
  apply evolves_keep; auto.
Qed.

Lemma evolves_filter (p : Notification -> bool) (l : list Notification) :
  evolves l (List.filter p l).
Proof.
  induction l as [|n l IH]; simpl; [constructor|].
  destruct (p n); [apply evolves_keep; auto | apply evolves_drop; auto].
Qed.

Lemma evolves_nil_r (l : list Notification) : evolves l [].
Proof. induction l; constructor; auto. Qed.

Lemma evolves_step (op : Op) (st : State) :
  evolves (notifications st) (notifications (step op st)).
Proof.
  destruct op as [r now nid|r now|r rendered nid|r]; destruct r; simpl;
    try apply evolves_refl.
  - apply evolves_map; intros n; destruct (id n =? nid); auto.
  - apply evolves_map; auto.
  - apply evolves_filter.
  - apply evolves_nil_r.
Qed.

(** What [evolves] says entry by entry: each entry of the new list comes
    from an entry of the old list with the same [id], and is read if that
    one was. *)
Lemma evolves_origin (l l' : list Notification) (n' : Notification) :
  evolves l l' -> In n' l' ->
  exists n, In n l /\ id n' = id n /\ (is_read n = true -> is_read n' = true).
Proof.
  induction 1 as [|n l l' _ IH|n m l l' Hid Hrd _ IH]; simpl; intros Hin.
  - contradiction.
  - destruct (IH Hin) as (x & Hx & Hrest). exists x. auto.
  - destruct Hin as [<-|Hin].
    + exists n. auto.
    + destruct (IH Hin) as (x & Hx & Hrest). exists x. auto.
Qed.

(** The number of unread entries never grows along [evolves]. *)
Lemma evolves_unread_in (l l' : list Notification) :
  evolves l l' -> unread_in l' <= unread_in l.
Proof.
  unfold unread_in.
  induction 1 as [|n l l' _ IH|n m l l' Hid Hrd _ IH]; simpl.
  - lia.
  - destruct (is_read n); simpl; lia.
  - destruct (is_read n) eqn:En.
    + rewrite Hrd by reflexivity. simpl. lia.
    + destruct (is_read m); simpl; lia.
Qed.

(** *** Deleting one notification *)

Lemma find_some_id (nid : Z) (l : list Notification) (n : Notification) :
  List.find (fun n => id n =? nid) l = Some n -> In n l /\ id n = nid.
Proof.
  intros H. apply List.find_some in H as [Hin Heq].
  split; [exact Hin | apply Z.eqb_eq; exact Heq].
Qed.

Lemma find_none_id (nid : Z) (l : list Notification) :
  List.find (fun n => id n =? nid) l = None -> forall n, In n l -> id n <> nid.
Proof.
  intros H n Hin Heq.
  pose proof (List.find_none _ _ H n Hin) as Hn. simpl in Hn.
  apply Z.eqb_neq in Hn. contradiction.
Qed.

(** C5 (as amended).  A resolved [deleteNotification id] removes every
    entry with that [id], read or unread, and keeps the others, whatever
    list the handler was rendered with.  When it runs on the list as
    rendered from the current state, the cached unread counter takes the
    clamped decrement [max 0 (count - 1)] exactly when the deleted entry,
    the first one of the list with that [id], was unread, and is unchanged
    when that entry was read or when no entry has that [id]: the counter
    drops by one if and only if the deleted entry was unread and the
    counter was positive, and a counter of 0 stays 0. *)
Theorem deleteNotification_removes_and_counts (nid : Z) (st : State) :
  (forall rendered n,
     In n (notifications (deleteNotification true rendered nid st)) <->
     In n (notifications st) /\ id n <> nid) /\
  unreadCount (deleteNotification true (notifications st) nid st) =
    match List.find (fun n => id n =? nid) (notifications st) with
    | Some n => if is_read n then unreadCount st
                else Z.max 0 (unreadCount st - 1)
    | None => unreadCount st
    end /\
  (unreadCount (deleteNotification true (notifications st) nid st)
     = unreadCount st - 1 <->
   0 < unreadCount st /\
   exists n, List.find (fun n => id n =? nid) (notifications st) = Some n /\
             is_read n = false) /\
  (unreadCount st = 0 ->
   unreadCount (deleteNotification true (notifications st) nid st) = 0).
Proof.
  split; [|split; [|split]].
  - intros rendered n. simpl. rewrite List.filter_In.
    rewrite negb_true_iff, Z.eqb_neq. tauto.
  - simpl. destruct (List.find _ _) as [n|]; [|reflexivity].
    destruct (is_read n); reflexivity.
  - simpl. destruct (List.find _ _) as [n|].
    + destruct (is_read n) eqn:En; simpl; split.
      * lia.
      * intros (_ & m & Hm & Hr). injection Hm as <-. congruence.
      * intros H. split; [lia|]. exists n. auto.
      * intros (Hpos & _). lia.
    + split; [lia|]. intros (_ & m & Hm & _). discriminate.
  - intros H0. simpl. destruct (List.find _ _) as [n|]; [|exact H0].
    destruct (is_read n); simpl; lia.
Qed.

Lemma deleteNotification_removes_and_counts_witness :
  unreadCount (deleteNotification true
                 (notifications (markAllAsRead true 5 Samples.two_unread)) 2
                 (markAllAsRead true 5 Samples.two_unread)) = 0.
Proof.
  apply (proj2 (proj2 (proj2 (deleteNotification_removes_and_counts 2
                 (markAllAsRead true 5 Samples.two_unread))))).
  reflexivity.
Defined.

(** The claim fails where the counter is already 0.  After [markAsRead 1]
    has run twice on two unread notifications the counter is 0 and
    notification 2 is still unread; deleting notification 2 on the list as
    rendered removes it, and the counter is not decremented: it is 0
    before and 0 after. *)
Lemma delete_unread_at_zero_keeps_count :
  let st :=
    markAsRead true 200 1 (markAsRead true 100 1 Samples.two_unread) in
  unreadCount st = 0 /\
  List.map is_read (notifications st) = [true; false] /\
  List.find (fun n => id n =? 2) (notifications st)
    = Some (Samples.note 2 false None) /\
  List.map id (notifications (deleteNotification true (notifications st) 2 st))
    = [1] /\
  unreadCount (deleteNotification true (notifications st) 2 st) = 0.
Proof. repeat split. Qed.

(** Deleting a read entry leaves the counter alone. *)
Example delete_read_keeps_count :
  let st := markAsRead true 100 1 Samples.two_unread in
  let st' := deleteNotification true (notifications st) 1 st in
  List.map id (notifications st') = [2] /\
  unreadCount st = 1 /\ unreadCount st' = 1.
Proof. repeat split. Qed.

(** Two delete clicks on the same rendered row: the second handler still
    finds the entry unread in the list it was rendered with and lowers the
    counter again, although the entry is already gone. *)
Example delete_twice_on_one_render :
  let rendered := notifications Samples.two_unread in
  let st1 := deleteNotification true rendered 1 Samples.two_unread in
  let st2 := deleteNotification true rendered 1 st1 in
  List.map id (notifications st2) = [2] /\
  unreadCount st1 = 1 /\ unreadCount st2 = 0 /\ totalCount st2 = 0.
Proof. repeat split. Qed.

(** *** Marking read twice *)

(** C6 (the code departs from the claim).  Starting from two unread
    notifications and a counter of 2, [markAsRead 1] at time 100 marks the
    first one read and lowers the counter to 1.  A second [markAsRead 1] at
    time 200 is not a no-op: it rewrites [read_at] to 200 and lowers the
    counter to 0 although the second notification is still unread. *)
Theorem markAsRead_again_changes_state :
  let st1 := markAsRead true 100 1 Samples.two_unread in
  let st2 := markAsRead true 200 1 st1 in
  List.map is_read (notifications st1) = [true; false] /\
  List.map read_at (notifications st1) = [Some (iso 100); None] /\
  unreadCount st1 = 1 /\
  List.map is_read (notifications st2) = [true; false] /\
  List.map read_at (notifications st2) = [Some (iso 200); None] /\
  unreadCount st2 = 0 /\
  unread_in (notifications st2) = 1 /\
  st2 <> st1.
Proof.
  cbv zeta. repeat split; try reflexivity.
  intros H. apply (f_equal unreadCount) in H. discriminate H.
Qed.

(** What does hold for a repeated [markAsRead]: the read flags are the same
    after the second call as after the first. *)
Lemma markAsRead_again_flags (t1 t2 nid : Z) (st : State) :
  List.map is_read (notifications (markAsRead true t2 nid (markAsRead true t1 nid st))) =
  List.map is_read (notifications (markAsRead true t1 nid st)).
Proof.
  simpl. rewrite !List.map_map. apply List.map_ext. intros n.
  destruct (id n =? nid) eqn:E; simpl; rewrite E; reflexivity.
Qed.

(** *** One-way read state *)

(** C7.  Over any sequence of [markAsRead], [markAllAsRead],
    [deleteNotification] and [deleteAllNotifications] calls (resolved or
    rejected), the notification list only [evolves]: every notification
    still present stems from one of the same [id] in the earlier list, and
    if that one was read it is read; no [is_read] flag goes from [true]
    back to [false]. *)
Theorem read_state_one_way (ops : list Op) (st : State) :
  evolves (notifications st) (notifications (run ops st)) /\
  forall n', In n' (notifications (run ops st)) ->
    exists n, In n (notifications st) /\ id n' = id n /\
              (is_read n = true -> is_read n' = true).
Proof.
  assert (H : evolves (notifications st) (notifications (run ops st))).
  { revert st. induction ops as [|op ops IH]; intros st.
    - apply evolves_refl.
    - rewrite run_cons.
      eapply evolves_trans; [apply evolves_step | apply IH]. }
  split; [exact H|].
  intros n' Hin. eapply evolves_origin; eauto.
Qed.

Lemma read_state_one_way_witness :
  exists n, In n (notifications Samples.two_unread) /\
            id (Samples.note 1 true (Some (iso 7))) = id n /\
            (is_read n = true ->
             is_read (Samples.note 1 true (Some (iso 7))) = true).
Proof.
  apply (proj2 (read_state_one_way
                  [MarkAsRead true 7 1;
                   DeleteNotification true
                     (notifications Samples.two_unread) 2]
                  Samples.two_unread)).
  simpl. left. reflexivity.
Defined.

(** *** The counter stays non-negative *)

Lemma step_unreadCount_nonneg (op : Op) (st : State) :
  0 <= unreadCount st -> 0 <= unreadCount (step op st).
Proof.
  intros H.
  destruct op as [r now nid|r now|r rendered nid|r]; destruct r; simpl;
    try lia.
  destruct (List.find _ _) as [n|]; [|exact H].
  destruct (is_read n); simpl; lia.
Qed.

(** The reasons: a resolved [markAsRead] clamps, the bulk operations set 0. *)
Lemma resolved_counts (now nid : Z) (st : State) :
  unreadCount (markAsRead true now nid st) = Z.max 0 (unreadCount st - 1) /\
  unreadCount (markAllAsRead true now st) = 0 /\
  unreadCount (deleteAllNotifications true st) = 0.
Proof. repeat split. Qed.

(** C9.  Every notification operation preserves [0 <= unreadCount], hence
    so does any sequence of them: from a non-negative counter (it starts at
    0) the counter is never negative. *)
Theorem unreadCount_never_negative (ops : list Op) (st : State) :
  0 <= unreadCount st -> 0 <= unreadCount (run ops st).
Proof.
  revert st. induction ops as [|op ops IH]; intros st H.
  - exact H.
  - rewrite run_cons. apply IH. apply step_unreadCount_nonneg. exact H.
Qed.

Lemma unreadCount_never_negative_witness :
  0 <= unreadCount initial /\
  0 <= unreadCount (run [MarkAsRead true 5 1;
                         DeleteNotification true
                           (notifications Samples.two_unread) 2;
                         MarkAllAsRead false 6; DeleteAllNotifications true]
                        initial).
Proof.
  split; [discriminate|].
  apply unreadCount_never_negative. discriminate.
Defined.

End NotificationProps.


(** ** Attendance capture *)

Module CaptureProps.
Import JS AttendanceCapture.
Local Open Scope Z_scope.

Lemma isEnrolled_false_iff (st : State) (u : User) :
  isEnrolled st u = false <->
  forall course, selectedCourse st = Some course ->
    forall s, In s (enrolled_students course) -> user_id s <> user_id u.
Proof.
  unfold isEnrolled. destruct (selectedCourse st) as [course|].
  - split.
    + intros H c [= <-] s Hin Heq.
      assert (Ht : List.existsb (fun s => user_id s =? user_id u)
                                (enrolled_students course) = true).
      { apply List.existsb_exists. exists s. split; [exact Hin|].
        apply Z.eqb_eq. exact Heq. }
      congruence.
    + intros H.
      destruct (List.existsb _ _) eqn:E; [|reflexivity].
      apply List.existsb_exists in E as (s & Hin & Heq).
      apply Z.eqb_eq in Heq. exfalso. exact (H course eq_refl s Hin Heq).
  - split; [intros _ c [=] | reflexivity].
Qed.

Lemma isEnrolled_true_iff (st : State) (u : User) :
  isEnrolled st u = true <->
  exists course s, selectedCourse st = Some course /\
                   In s (enrolled_students course) /\ user_id s = user_id u.
Proof.
  unfold isEnrolled. destruct (selectedCourse st) as [course|].
  - rewrite List.existsb_exists. split.
    + intros (s & Hin & Heq). exists course, s.
      repeat split; [exact Hin | apply Z.eqb_eq; exact Heq].
    + intros (c & s & [= <-] & Hin & Heq). exists s.
      split; [exact Hin | apply Z.eqb_eq; exact Heq].
  - split; [discriminate | intros (c & s & [=] & _)].
Qed.

Lemma posted_app (r1 r2 : list Request) :
  posted (r1 ++ r2) = posted r1 ++ posted r2.
Proof. unfold posted. apply List.flat_map_app. Qed.

(** A capture leaves the course selection and the session start alone. *)
Lemma captureAndProcess_keeps_session (env : Env) (c : Capture) (st : State) :
  selectedCourse (fst (captureAndProcess env c st)) = selectedCourse st /\
  sessionStartTime (fst (captureAndProcess env c st)) = sessionStartTime st.
Proof.
  unfold captureAndProcess.
  destruct (frame c); simpl; [|auto].
  destruct (verify c) as [data|]; simpl; [|auto].
  destruct (matched data); simpl; [|auto].
  destruct (verified_user data) as [u|]; simpl; [|auto].
  destruct (isEnrolled st u); simpl; auto.
Qed.

Lemma process_cons (env : Env) (c : Capture) (cs : list Capture) (st : State) :
  process env (c :: cs) st =
  (fst (process env cs (fst (captureAndProcess env c st))),
   snd (captureAndProcess env c st) ++
   snd (process env cs (fst (captureAndProcess env c st)))).
Proof.
  simpl. destruct (captureAndProcess env c st) as [st1 sent1]. simpl.
  destruct (process env cs st1) as [st2 sent2]. reflexivity.
Qed.

(** What one capture posts: nothing, or the one request of
    [markAttendance] for a user the enrollment check let through. *)
Lemma captureAndProcess_posted (env : Env) (c : Capture) (st : State)
    (d : AttendanceData) :
  In d (posted (snd (captureAndProcess env c st))) ->
  exists u conf, isEnrolled st u = true /\
    In d (posted (markAttendance env st (mark_now c) (user_id u) conf)).
Proof.
  unfold captureAndProcess.
  destruct (frame c); simpl; [|contradiction].
  destruct (verify c) as [data|]; simpl; [|contradiction].
  destruct (matched data); simpl; [|contradiction].
  destruct (verified_user data) as [u|]; simpl; [|contradiction].
  destruct (isEnrolled st u) eqn:E; simpl; [|contradiction].
  intros H. exists u, (or_zero (verified_confidence data)). auto.
Qed.

Lemma markAttendance_posted (env : Env) (st : State) (now uid : Z) (conf : Q)
    (d : AttendanceData) :
  In d (posted (markAttendance env st now uid conf)) ->
  att_user_id d = uid /\ status d = present /\ confidence d = conf /\
  session_end d = iso (now + 60000) /\
  exists course start,
    selectedCourse st = Some course /\ sessionStartTime st = Some start /\
    att_course_id d = pretty (course_id course) /\ session_start d = iso start.
Proof.
  unfold markAttendance.
  destruct (selectedCourse st) as [course|]; [|contradiction].
  destruct (sessionStartTime st) as [start|]; [|contradiction].
  simpl. intros [<-|[]]. simpl. repeat split.
  exists course, start. auto.
Qed.

(** *** C1: no record for a face that is not enrolled *)

(** C1.  When the verifier matches a user who is not among the selected
    course's [enrolled_students] (or no course is selected), the capture
    sends no attendance request, whatever confidence the verifier returned:
    the only request is the verification itself, the face is listed as
    [unknown] under the name "Not enrolled in this course", and the
    [unknown] counter, not the [presentStudents] counter, goes up. *)
Theorem not_enrolled_creates_no_record
    (env : Env) (c : Capture) (st : State) (data : VerifyData) (u : User) :
  frame c = true ->
  verify c = Some data ->
  matched data = true ->
  verified_user data = Some u ->
  (forall course, selectedCourse st = Some course ->
     forall s, In s (enrolled_students course) -> user_id s <> user_id u) ->
  snd (captureAndProcess env c st) = [VerifyFace] /\
  posted (snd (captureAndProcess env c st)) = [] /\
  detectedFaces (fst (captureAndProcess env c st)) =
    detectedFaces st ++
    [{| face_id := "unknown";
        face_name := "Not enrolled in this course";
        face_confidence := or_zero (verified_confidence data);
        face_timestamp := iso (face_now c);
        face_status := unknown |}] /\
  sessionStats (fst (captureAndProcess env c st)) =
    {| totalDetected := totalDetected (sessionStats st) + 1;
       recognizedCount := recognizedCount (sessionStats st);
       unknownCount := unknownCount (sessionStats st) + 1;
       presentStudents := presentStudents (sessionStats st) |}.
Proof.
  intros Hf Hv Hm Hu Hne. apply isEnrolled_false_iff in Hne.
  unfold captureAndProcess. rewrite Hf, Hv, Hm, Hu, Hne. simpl.
  repeat split.
Qed.

Lemma not_enrolled_creates_no_record_witness :
  posted (snd (captureAndProcess Samples.env0
                 (Samples.sees Samples.bob (99 # 100) Samples.t_1003)
                 Samples.session_1000)) = [].
Proof.
  refine (proj1 (proj2 (not_enrolled_creates_no_record
            Samples.env0 (Samples.sees Samples.bob (99 # 100) Samples.t_1003)
            Samples.session_1000
            (mkVerify true (Some Samples.bob) (Some (99 # 100)))
            Samples.bob eq_refl eq_refl eq_refl eq_refl _))).
  intros course [= <-] s [<-|[]]. discriminate.
Defined.

(** Over a whole session, every attendance request is for a student of the
    selected course. *)
Lemma session_posts_only_enrolled (env : Env) (cs : list Capture) (st : State)
    (d : AttendanceData) :
  In d (posted (snd (process env cs st))) ->
  exists course s, selectedCourse st = Some course /\
                   In s (enrolled_students course) /\
                   user_id s = att_user_id d.
Proof.
  revert st. induction cs as [|c cs IH]; intros st; [contradiction|].
  rewrite process_cons. simpl. rewrite posted_app, List.in_app_iff.
  intros [H|H].
  - apply captureAndProcess_posted in H as (u & conf & He & Hd).
    apply markAttendance_posted in Hd as (Hid & _).
    apply isEnrolled_true_iff in He as (course & s & Hc & Hin & Hs).
    exists course, s. repeat split; [exact Hc | exact Hin | congruence].
  - apply IH in H as (course & s & Hc & Hin & Hs).
    destruct (captureAndProcess_keeps_session env c st) as [Hsel _].
    exists course, s. repeat split; [congruence | exact Hin | exact Hs].
Qed.

(** *** C3: the status that is submitted *)

(** C3 (as amended).  With a course selected and a session started,
    [markAttendance] submits exactly one record and its status is [present]
    whatever the confidence and whatever the capture time; and every record
    submitted during a session has status [present].  The client compares
    the confidence with no threshold and the capture time with no grace
    offset, and never submits [late]. *)
Theorem submitted_status_is_present
    (env : Env) (st : State) (now uid : Z) (conf : Q)
    (course : Course) (start : Z) :
  selectedCourse st = Some course ->
  sessionStartTime st = Some start ->
  List.map status (posted (markAttendance env st now uid conf)) = [present] /\
  List.map confidence (posted (markAttendance env st now uid conf)) = [conf] /\
  forall cs d, In d (posted (snd (process env cs st))) -> status d = present.
Proof.
  intros Hc Hs. unfold markAttendance. rewrite Hc, Hs. simpl.
  split; [reflexivity|]. split; [reflexivity|].
  intros cs. revert st Hc Hs.
  induction cs as [|c cs IH]; intros st Hc Hs d; [contradiction|].
  rewrite process_cons. simpl. rewrite posted_app, List.in_app_iff.
  destruct (captureAndProcess_keeps_session env c st) as [Hsel Hst].
  intros [H|H].
  - apply captureAndProcess_posted in H as (u & q & _ & Hd).
    apply markAttendance_posted in Hd. tauto.
  - apply (IH (fst (captureAndProcess env c st))); congruence.
Qed.

Lemma submitted_status_is_present_witness :
  List.map status
    (posted (markAttendance Samples.env0 Samples.session_1000
               Samples.t_1012 7 (92 # 100))) = [present].
Proof.
  exact (proj1 (submitted_status_is_present
                  Samples.env0 Samples.session_1000 Samples.t_1012 7
                  (92 # 100) Samples.c101 Samples.t_1000 eq_refl eq_refl)).
Defined.

(** The claim fails on the scenario of the specification: a capture at
    10:12 in the session started at 10:00, seven minutes past the grace
    offset and before the session end (both the declared 10:30 and the
    end the client submits), with confidence 0.92 above the threshold 0.8,
    is Late by the rule of the specification and is submitted as
    [present]. *)
Lemma late_capture_is_submitted_present :
  List.map status
    (posted (snd (captureAndProcess Samples.env0
                    (Samples.sees Samples.alice (92 # 100) Samples.t_1012)
                    Samples.session_1000))) = [present] /\
  List.map session_end
    (posted (snd (captureAndProcess Samples.env0
                    (Samples.sees Samples.alice (92 # 100) Samples.t_1012)
                    Samples.session_1000))) = [iso (Samples.t_1012 + 60000)] /\
  spec_derived_status Samples.threshold Samples.grace_5min
    Samples.t_1000 Samples.t_1030 Samples.t_1012 (92 # 100) = Some late /\
  spec_derived_status Samples.threshold Samples.grace_5min
    Samples.t_1000 (Samples.t_1012 + 60000) Samples.t_1012 (92 # 100)
    = Some late.
Proof. repeat split. Qed.

(** *** C4: the key of two captures in one session *)

(** C4 (as amended).  Two captures of the same enrolled student in one
    session each send an attendance request (the client drops neither).
    The two requests carry the same [user_id], [course_id] and
    [session_start], and each carries its own [session_end], one minute
    after its capture; so their (student_id, course_id, session_window)
    keys are equal exactly when both captures read the same clock value. *)
Theorem session_window_follows_capture_time
    (env : Env) (st : State) (c1 c2 : Capture) (data1 data2 : VerifyData)
    (u : User) (course : Course) (start : Z) :
  selectedCourse st = Some course ->
  sessionStartTime st = Some start ->
  frame c1 = true -> verify c1 = Some data1 ->
  matched data1 = true -> verified_user data1 = Some u ->
  frame c2 = true -> verify c2 = Some data2 ->
  matched data2 = true -> verified_user data2 = Some u ->
  isEnrolled st u = true ->
  exists d1 d2,
    posted (snd (process env [c1; c2] st)) = [d1; d2] /\
    att_user_id d1 = user_id u /\ att_user_id d2 = user_id u /\
    att_course_id d1 = att_course_id d2 /\
    session_start d1 = iso start /\ session_start d2 = iso start /\
    session_end d1 = iso (mark_now c1 + 60000) /\
    session_end d2 = iso (mark_now c2 + 60000) /\
    (dedup_key d1 = dedup_key d2 <-> mark_now c1 = mark_now c2).
Proof.
  intros Hc Hs Hf1 Hv1 Hm1 Hu1 Hf2 Hv2 Hm2 Hu2 He.
  unfold process, captureAndProcess.
  rewrite Hf1, Hv1, Hm1, Hu1, He. simpl.
  rewrite Hf2, Hv2, Hm2, Hu2. simpl.
  unfold isEnrolled in *. simpl. rewrite Hc in *. rewrite He.
  unfold markAttendance. simpl. rewrite Hc, Hs. simpl.
  eexists _, _. split; [reflexivity|]. simpl.
  repeat split; unfold dedup_key, plus_one_minute; simpl.
  - intros [= H]. lia.
  - intros ->. reflexivity.
Qed.

Lemma session_window_follows_capture_time_witness :
  exists d1 d2,
    posted (snd (process Samples.env0
                   [Samples.sees Samples.alice (92 # 100) Samples.t_1003;
                    Samples.sees Samples.alice (92 # 100) Samples.t_1020]
                   Samples.session_1000)) = [d1; d2] /\
    session_end d1 = iso (Samples.t_1003 + 60000) /\
    session_end d2 = iso (Samples.t_1020 + 60000).
Proof.
  destruct (session_window_follows_capture_time
              Samples.env0 Samples.session_1000
              (Samples.sees Samples.alice (92 # 100) Samples.t_1003)
              (Samples.sees Samples.alice (92 # 100) Samples.t_1020)
              (mkVerify true (Some Samples.alice) (Some (92 # 100)))
              (mkVerify true (Some Samples.alice) (Some (92 # 100)))
              Samples.alice Samples.c101 Samples.t_1000
              eq_refl eq_refl eq_refl eq_refl eq_refl eq_refl
              eq_refl eq_refl eq_refl eq_refl eq_refl)
    as (d1 & d2 & H & _ & _ & _ & _ & _ & He1 & He2 & _).
  exists d1, d2. auto.
Defined.

(** The claim fails on the scenario of the specification: the captures of
    one student at 10:03 and at 10:20, in the session started at 10:00,
    are both submitted, with the session windows [10:00, 10:04) and
    [10:00, 10:21): the two dedup keys differ. *)
Lemma two_captures_submit_two_keys :
  List.map dedup_key
    (posted (snd (process Samples.env0
                    [Samples.sees Samples.alice (92 # 100) Samples.t_1003;
                     Samples.sees Samples.alice (92 # 100) Samples.t_1020]
                    Samples.session_1000))) =
    [(7, "101", (iso 36000000, iso 36240000));
     (7, "101", (iso 36000000, iso 37260000))] /\
  (7, "101", (iso 36000000, iso 36240000)) <>
  (7, "101", (iso 36000000, iso 37260000)).
Proof.
  split; [vm_compute; reflexivity|]. intros H. discriminate H.
Qed.

(** A recorder that deduplicates on that key, as the specification asks,
    therefore keeps both captures and reports no [DuplicateSession]; it
    does collapse two requests whose keys are equal. *)
Lemma recorder_keeps_both_captures :
  let sent :=
    posted (snd (process Samples.env0
                   [Samples.sees Samples.alice (92 # 100) Samples.t_1003;
                    Samples.sees Samples.alice (92 # 100) Samples.t_1020]
                   Samples.session_1000)) in
  List.length (fst (Recorder.recordAll (fun _ _ => true) sent [])) = 2%nat /\
  snd (Recorder.recordAll (fun _ _ => true) sent []) = [None; None].
Proof. vm_compute. split; reflexivity. Qed.

Lemma recorder_collapses_equal_keys (d : AttendanceData) :
  Recorder.recordAll (fun _ _ => true) [d; d] [] =
  ([d], [None; Some Recorder.DuplicateSession]).
Proof.
  assert (H : Recorder.key_eqb (dedup_key d) (dedup_key d) = true).
  { unfold Recorder.key_eqb, dedup_key, Recorder.ISOString_eqb.
    rewrite !Z.eqb_refl, String.eqb_refl. reflexivity. }
  cbn [Recorder.recordAll Recorder.recordAttendance negb List.existsb app].
  rewrite H. reflexivity.
Qed.

End CaptureProps.

(** ** Enrollment capacity *)

Module EnrollmentProps.
Import Enrollment.
Local Open Scope Z_scope.

Lemma count_app (c : LedgerCourse) (l : list Row) :
  count (with_rows (rows c ++ l) c) =
  count c + Z.of_nat (List.length (List.filter active l)).
Proof.
  unfold count. simpl. rewrite List.filter_app, List.length_app. lia.
Qed.

Lemma count_deactivate (s : Z) (l : list Row) :
  Nat.le
    (List.length
       (List.filter active
          (List.map (fun r => if active r && (row_student r =? s)
                              then mkRow (row_student r) false else r) l)))
    (List.length (List.filter active l)).
Proof.
  induction l as [|r l IH]; simpl; [lia|].
  destruct (active r) eqn:Ea; simpl.
  - destruct (row_student r =? s); simpl; [lia|].
    rewrite Ea. simpl. lia.
  - rewrite Ea. exact IH.
Qed.

Lemma enroll_at_capacity (s cid : Z) (L : gmap Z LedgerCourse)
    (c : LedgerCourse) :
  L !! cid = Some c -> capacity c <= count c ->
  enroll s cid L = inl CapacityExceeded.
Proof.
  intros Hc Hfull. unfold enroll. rewrite Hc.
  destruct (capacity c <=? count c) eqn:E; [reflexivity|].
  apply Z.leb_gt in E. lia.
Qed.

Lemma enroll_within_capacity (s cid : Z) (L L' : gmap Z LedgerCourse) :
  within_capacity L -> enroll s cid L = inr L' -> within_capacity L'.
Proof.
  intros HL. unfold enroll.
  destruct (L !! cid) as [c|] eqn:Hc; [|discriminate].
  destruct (capacity c <=? count c) eqn:E; [discriminate|].
  destruct (enrolled_in s c); [discriminate|].
  destruct (negb (is_active c)); [discriminate|].
  intros [= <-] k d. rewrite lookup_insert. case_decide.
  - intros [= <-]. rewrite count_app. simpl.
    apply Z.leb_gt in E. lia.
  - apply HL.
Qed.

Lemma unenroll_within_capacity (s cid : Z) (L L' : gmap Z LedgerCourse) :
  within_capacity L -> unenroll s cid L = inr L' -> within_capacity L'.
Proof.
  intros HL. unfold unenroll.
  destruct (L !! cid) as [c|] eqn:Hc; [|discriminate].
  destruct (enrolled_in s c); [|discriminate].
  intros [= <-] k d. rewrite lookup_insert. case_decide.
  - intros [= <-]. unfold count. simpl.
    pose proof (count_deactivate s (rows c)) as Hle.
    pose proof (HL cid c Hc) as Hcap. unfold count in Hcap. lia.
  - apply HL.
Qed.

Lemma perform_within_capacity (a : Action) (L : gmap Z LedgerCourse) :
  within_capacity L -> within_capacity (perform a L).
Proof.
  intros HL. unfold perform. destruct a as [s cid|s cid].
  - destruct (enroll s cid L) eqn:E; [exact HL|].
    eapply enroll_within_capacity; eauto.
  - destruct (unenroll s cid L) eqn:E; [exact HL|].
    eapply unenroll_within_capacity; eauto.
Qed.

Lemma run_within_capacity (acts : list Action) (L : gmap Z LedgerCourse) :
  within_capacity L -> within_capacity (run acts L).
Proof.
  revert L. induction acts as [|a acts IH]; intros L HL; [exact HL|].
  simpl. apply IH. apply perform_within_capacity. exact HL.
Qed.

(** The scenario of the specification: with two places, S1 and S2 enroll,
    S3 is refused, and after S1 leaves S3 enrolls. *)
Example ledger_scenario :
  let L2 := run [Enroll 1 101; Enroll 2 101] Samples.ledger_of_two in
  count <$> (L2 !! 101) = Some 2 /\
  enroll 3 101 L2 = inl CapacityExceeded /\
  count <$> (run [Unenroll 1 101; Enroll 3 101] L2 !! 101) = Some 2 /\
  enrolled_in 3 <$> (run [Unenroll 1 101; Enroll 3 101] L2 !! 101) = Some true /\
  enrolled_in 1 <$> (run [Unenroll 1 101; Enroll 3 101] L2 !! 101) = Some false.
Proof. vm_compute. repeat split. Qed.

(** The admin form: a disabled button does not open the form, and the
    submit handler itself asks nothing about capacity. *)
Example admin_form_gate :
  enrollButtonDisabled Samples.full_course = true /\
  clickEnrollButton (mkForm (Some Samples.full_course) false 0) =
    mkForm (Some Samples.full_course) false 0 /\
  handleEnrollStudent (mkForm (Some Samples.full_course) true 5) =
    Some (101, 5).
Proof. repeat split. Qed.

(** C2 (as amended).  In the ledger, [enroll] is refused with
    [CapacityExceeded] whenever the number of active enrollments is at
    least the course's capacity, so after any sequence of enroll and
    unenroll calls every course holds at most [max_students] students.  In
    the client, the admin form's "Enroll Student" button is disabled
    exactly when [enrolled_students.length >= max_students]; the student's
    self-enroll button is disabled and labelled "Full" exactly when the
    flag [can_enroll] sent by the server is false. *)
Theorem capacity_gates :
  (forall s cid (L : gmap Z LedgerCourse) c,
     L !! cid = Some c -> capacity c <= count c ->
     enroll s cid L = inl CapacityExceeded) /\
  (forall acts (L : gmap Z LedgerCourse),
     within_capacity L -> within_capacity (run acts L)) /\
  (forall course,
     enrollButtonDisabled course = true <->
     max_students course <= Z.of_nat (List.length (enrolled_students course))) /\
  (forall course,
     is_enrolled course = false ->
     (label (courseButton course) = "Full" <-> can_enroll course = false) /\
     disabled (courseButton course) = negb (can_enroll course)).
Proof.
  split; [exact enroll_at_capacity|].
  split; [exact run_within_capacity|].
  split.
  - intros course. unfold enrollButtonDisabled. apply Z.leb_le.
  - intros course He. unfold courseButton. rewrite He. simpl.
    destruct (can_enroll course); simpl; split;
      try reflexivity; split; intros H; try discriminate H; reflexivity.
Qed.

Lemma capacity_gates_witness :
  within_capacity
    (run [Enroll 1 101; Enroll 2 101; Enroll 3 101; Unenroll 1 101;
          Enroll 3 101] Samples.ledger_of_two).
Proof.
  apply (proj1 (proj2 capacity_gates)).
  intros cid c. unfold Samples.ledger_of_two.
  rewrite lookup_singleton. case_decide; [|discriminate].
  intros [= <-]. vm_compute. discriminate.
Defined.

(** The claim fails for the student's button: on a course card with 3 of
    50 places taken and [can_enroll = false], the button is disabled and
    reads "Full" although capacity is not reached. *)
Lemma full_label_below_capacity :
  label (courseButton Samples.closed_course) = "Full" /\
  disabled (courseButton Samples.closed_course) = true /\
  enrolled_count Samples.closed_course < dc_max_students Samples.closed_course.
Proof. repeat split. Qed.

End EnrollmentProps.

(** ** The attendance-rate tile *)

Module DashboardProps.
Import Dashboard.
Local Open Scope Z_scope.

Lemma quotient_in_unit_interval (p t : Z) :
  0 <= p <= t -> 0 < t ->
  (0 <= inject_Z p / inject_Z t)%Q /\ (inject_Z p / inject_Z t <= 1)%Q.
Proof.
  intros Hp Ht. destruct t as [|t|t]; try lia.
  unfold Qle, Qdiv, Qmult, Qinv, inject_Z. simpl. split; lia.
Qed.

(** C8.  [attendanceRate] is never an error: it is the quotient
    [present_count / total_sessions] when there are sessions, where the
    bare division would be an error at 0 sessions it is 0 (for every
    [present_count]), and with [0 <= present_count <= total_sessions] it
    lies between 0 and 1.  With no statistics the dashboard reads "0%" on
    the rate tile and 0 on the session and present tiles; with statistics
    the rate tile prints the rate the server sent. *)
Theorem attendance_rate_zero_sessions :
  (forall present_count total_sessions,
     exists rate, attendanceRate present_count total_sessions = Some rate) /\
  (forall present_count,
     attendanceRate present_count 0 = Some 0%Q /\
     divide present_count 0 = None) /\
  (forall present_count total_sessions,
     total_sessions <> 0 ->
     attendanceRate present_count total_sessions =
       Some (inject_Z present_count / inject_Z total_sessions)%Q) /\
  (forall present_count total_sessions rate,
     0 <= present_count <= total_sessions ->
     attendanceRate present_count total_sessions = Some rate ->
     (0 <= rate)%Q /\ (rate <= 1)%Q) /\
  (forall toFixed1,
     attendanceRateTile toFixed1 None = "0%" /\
     forall stats,
       attendanceRateTile toFixed1 (Some stats) =
       String.append (toFixed1 (attendance_rate stats)) "%") /\
  totalSessionsTile None = 0 /\
  presentDaysTile None = 0.
Proof.
  assert (Hq : forall p t, t <> 0 ->
            attendanceRate p t = Some (inject_Z p / inject_Z t)%Q).
  { intros p t Ht. unfold attendanceRate, divide.
    apply Z.eqb_neq in Ht. rewrite Ht. reflexivity. }
  split; [|split; [|split; [exact Hq|split]]].
  - intros p t. destruct (Z.eq_dec t 0) as [->|Ht]; [exists 0%Q; reflexivity|].
    rewrite Hq by exact Ht. eauto.
  - intros p. split; reflexivity.
  - intros p t rate Hp Hr. destruct (Z.eq_dec t 0) as [->|Ht].
    + injection Hr as <-. split; discriminate.
    + rewrite Hq in Hr by exact Ht. injection Hr as <-.
      apply quotient_in_unit_interval; lia.
  - repeat split.
Qed.

Lemma attendance_rate_zero_sessions_witness :
  (0 <= inject_Z 6 / inject_Z 8)%Q /\ (inject_Z 6 / inject_Z 8 <= 1)%Q.
Proof.
  refine (proj1 (proj2 (proj2 (proj2 attendance_rate_zero_sessions)))
            6 8 _ _ _).
  - lia.
  - exact (proj1 (proj2 (proj2 attendance_rate_zero_sessions)) 6 8
             ltac:(discriminate)).
Defined.

End DashboardProps.

(** ** Session restore *)

Module AppProps.
Import JS AppSession.

Lemma render_null : render initial = Return AuthPage.
Proof. reflexivity. Qed.

Section Restore.

Variable JSON_parse : string -> Result JSON.

Lemma restore_returns (st : State) (ls : gmap string string) :
  exists st' ls', restore JSON_parse st ls = Return (st', ls').
Proof.
  unfold restore.
  destruct (ls !! user_key) as [s|]; [|eauto].
  destruct (truthy_string s); [|eauto].
  destruct (JSON_parse s) as [v|e]; simpl; eauto.
Qed.

Lemma restore_rejected (st : State) (ls : gmap string string)
    (s : string) (e : Exception) :
  ls !! user_key = Some s -> s <> EmptyString -> JSON_parse s = Throw e ->
  restore JSON_parse st ls = Return (st, delete user_key ls).
Proof.
  intros Hs Hne Hp. unfold restore. rewrite Hs.
  assert (Ht : truthy_string s = true).
  { unfold truthy_string. apply negb_true_iff, String.eqb_neq. exact Hne. }
  rewrite Ht, Hp. reflexivity.
Qed.

Lemma restore_accepted (st : State) (ls : gmap string string)
    (s : string) (v : JSON) :
  ls !! user_key = Some s -> s <> EmptyString -> JSON_parse s = Return v ->
  restore JSON_parse st ls = Return (setUser v st, ls).
Proof.
  intros Hs Hne Hp. unfold restore. rewrite Hs.
  assert (Ht : truthy_string s = true).
  { unfold truthy_string. apply negb_true_iff, String.eqb_neq. exact Hne. }
  rewrite Ht, Hp. reflexivity.
Qed.

(** C10 (as amended).  The session restore never throws, whatever string
    is stored under the persisted-user key and whatever [JSON.parse] does
    with it.  If the stored value is a non-empty string that [JSON.parse]
    rejects, the entry is removed, the user stays unset and the application
    start shows the auth page without throwing.  If nothing or the empty
    string is stored, the storage is left as it is and the auth page is
    shown.  If the stored value is a non-empty string that [JSON.parse]
    accepts, the parsed value is installed as the user as it is, whatever
    it is, and the storage is left as it is. *)
Theorem restore_is_total (st : State) (ls : gmap string string) :
  (exists st' ls', restore JSON_parse st ls = Return (st', ls')) /\
  (forall s v,
     ls !! user_key = Some s -> s <> EmptyString -> JSON_parse s = Return v ->
     restore JSON_parse st ls = Return (setUser v st, ls) /\
     user (setUser v st) = v) /\
  (forall s e,
     ls !! user_key = Some s -> s <> EmptyString -> JSON_parse s = Throw e ->
     restore JSON_parse st ls = Return (st, delete user_key ls) /\
     start JSON_parse ls = Return (AuthPage, delete user_key ls) /\
     delete user_key ls !! user_key = None) /\
  (ls !! user_key = None \/ ls !! user_key = Some EmptyString ->
   start JSON_parse ls = Return (AuthPage, ls)).
Proof.
  split; [apply restore_returns|]. split; [|split].
  - intros s v Hs Hne Hp. split; [|reflexivity].
    apply (restore_accepted st ls s v); assumption.
  - intros s e Hs Hne Hp. split; [eapply restore_rejected; eauto|].
    split; [|apply lookup_delete_eq].
    unfold start. rewrite render_null. simpl.
    rewrite (restore_rejected initial ls s e Hs Hne Hp). reflexivity.
  - intros [H|H]; unfold start, restore; rewrite render_null, H; reflexivity.
Qed.

End Restore.

Lemma restore_is_total_witness :
  start Samples.parse_nothing {[ user_key := "not json" ]} =
  Return (AuthPage, delete user_key {[ user_key := "not json" ]}).
Proof.
  refine (proj1 (proj2 (proj1 (proj2 (proj2
            (restore_is_total Samples.parse_nothing initial
               {[ user_key := "not json" ]})))
            "not json" SyntaxError _ _ eq_refl))).
  - apply lookup_singleton_eq.
  - discriminate.
Defined.

(** The claim fails for a stored string that is valid JSON and not a user:
    the text of the empty object parses, the parsed object is installed as
    the user, it is truthy, and the header's [user.name.charAt(0)] throws a
    [TypeError] while [App] renders. *)
Lemma stored_empty_object_throws :
  Samples.parse_empty_object "{}" = Return (JObject []) /\
  restore Samples.parse_empty_object initial {[ user_key := "{}" ]} =
    Return (setUser (JObject []) initial, {[ user_key := "{}" ]}) /\
  start Samples.parse_empty_object {[ user_key := "{}" ]} = Throw TypeError.
Proof. repeat split. Qed.

(** A stored user object restores the session. *)
Example stored_user_restores :
  let alice := JObject [("id", JNumber 7); ("name", JString "Alice")] in
  start (fun _ => Return alice) {[ user_key := "{...}" ]} =
  Return (MainLayout, {[ user_key := "{...}" ]}).
Proof. reflexivity. Qed.

End AppProps.

(** ** The notification dropdown *)

Module BellProps.
Import JS NotificationContext NotificationBell.
Local Open Scope Z_scope.

Lemma unread_in_cons (n : Notification) (l : list Notification) :
  unread_in (n :: l) = (if is_read n then 0 else 1) + unread_in l.
Proof.
  unfold unread_in. simpl. destruct (is_read n); simpl; lia.
Qed.

Lemma unread_in_nonneg (l : list Notification) : 0 <= unread_in l.
Proof. unfold unread_in. lia. Qed.

Lemma map_other_ids (f : Notification -> Notification) (k : Z)
    (l : list Notification) :
  ~ In k (List.map id l) ->
  List.map (fun x => if id x =? k then f x else x) l = l.
Proof.
  induction l as [|x l IH]; simpl; intros H; [reflexivity|].
  destruct (id x =? k) eqn:E.
  - apply Z.eqb_eq in E. tauto.
  - rewrite IH by tauto. reflexivity.
Qed.

Lemma filter_other_ids (k : Z) (l : list Notification) :
  ~ In k (List.map id l) ->
  List.filter (fun x => negb (id x =? k)) l = l.
Proof.
  induction l as [|x l IH]; simpl; intros H; [reflexivity|].
  destruct (id x =? k) eqn:E; simpl.
  - apply Z.eqb_eq in E. tauto.
  - rewrite IH by tauto. reflexivity.
Qed.

Lemma map_ids_mark (now k : Z) (l : list Notification) :
  List.map id (List.map (fun x => if id x =? k then set_read now x else x) l)
  = List.map id l.
Proof.
  rewrite List.map_map. apply List.map_ext. intros x.
  destruct (id x =? k); reflexivity.
Qed.

Lemma NoDup_ids_filter (p : Notification -> bool) (l : list Notification) :
  List.NoDup (List.map id l) -> List.NoDup (List.map id (List.filter p l)).
Proof.
  induction l as [|x l IH]; simpl; intros H; [constructor|].
  apply (proj1 (List.NoDup_cons_iff _ _)) in H as [Hx Hl].
  destruct (p x); simpl; [|auto].
  apply List.NoDup_cons_iff. split; [|auto].
  intros Hin. apply Hx.
  apply List.in_map_iff in Hin as (y & Hy & Hin).
  apply List.filter_In in Hin as [Hin _].
  apply List.in_map_iff. eauto.
Qed.

(** With distinct ids, marking a listed unread entry lowers the number of
    unread entries by one. *)
Lemma unread_in_mark (now : Z) (n : Notification) (l : list Notification) :
  List.NoDup (List.map id l) -> In n l -> is_read n = false ->
  unread_in (List.map (fun x => if id x =? id n then set_read now x else x) l)
  = unread_in l - 1.
Proof.
  intros Hnd Hin Hn. induction l as [|x l IH]; [contradiction|].
  simpl in Hnd. apply (proj1 (List.NoDup_cons_iff _ _)) in Hnd as [Hx Hl].
  simpl. rewrite !unread_in_cons. destruct Hin as [->|Hin].
  - rewrite Z.eqb_refl. simpl. rewrite Hn.
    rewrite map_other_ids by exact Hx. lia.
  - assert (Hne : id x <> id n).
    { intros Heq. apply Hx. rewrite Heq. apply List.in_map. exact Hin. }
    apply Z.eqb_neq in Hne. rewrite Hne. rewrite IH by assumption. lia.
Qed.

(** With distinct ids, [find] by the id of a listed entry returns it, and
    deleting it lowers the number of unread entries by one if it was
    unread and not at all if it was read. *)
Lemma find_listed (n : Notification) (l : list Notification) :
  List.NoDup (List.map id l) -> In n l ->
  List.find (fun x => id x =? id n) l = Some n.
Proof.
  intros Hnd Hin. induction l as [|x l IH]; [contradiction|].
  simpl in Hnd. apply (proj1 (List.NoDup_cons_iff _ _)) in Hnd as [Hx Hl]. simpl.
  destruct Hin as [->|Hin].
  - rewrite Z.eqb_refl. reflexivity.
  - destruct (id x =? id n) eqn:E; [|auto].
    apply Z.eqb_eq in E. exfalso. apply Hx. rewrite E.
    apply List.in_map. exact Hin.
Qed.

Lemma unread_in_delete (n : Notification) (l : list Notification) :
  List.NoDup (List.map id l) -> In n l ->
  unread_in (List.filter (fun x => negb (id x =? id n)) l)
  = unread_in l - (if is_read n then 0 else 1).
Proof.
  intros Hnd Hin. induction l as [|x l IH]; [contradiction|].
  simpl in Hnd. apply (proj1 (List.NoDup_cons_iff _ _)) in Hnd as [Hx Hl].
  simpl. destruct Hin as [->|Hin].
  - rewrite Z.eqb_refl. simpl. rewrite unread_in_cons.
    rewrite filter_other_ids by exact Hx. lia.
  - assert (Hne : id x <> id n).
    { intros Heq. apply Hx. rewrite Heq. apply List.in_map. exact Hin. }
    apply Z.eqb_neq in Hne. rewrite Hne. simpl.
    rewrite !unread_in_cons, IH by assumption. lia.
Qed.

Lemma unread_in_all_read (now : Z) (l : list Notification) :
  unread_in (List.map (set_read now) l) = 0.
Proof.
  induction l as [|x l IH]; [reflexivity|].
  simpl. rewrite unread_in_cons. simpl. exact IH.
Qed.

Lemma listed_unread_positive (n : Notification) (l : list Notification) :
  In n l -> is_read n = false -> 1 <= unread_in l.
Proof.
  induction l as [|x l IH]; [contradiction|].
  intros [->|Hin] Hn; rewrite unread_in_cons.
  - rewrite Hn. pose proof (unread_in_nonneg l). lia.
  - pose proof (IH Hin Hn). destruct (is_read x); lia.
Qed.

(** A resolved [markAsRead] of a listed unread entry, and a resolved
    [deleteNotification] of a listed entry, keep the ids distinct and the
    drift unchanged. *)
Lemma markAsRead_listed (r : bool) (now : Z) (n : Notification) (st : State) :
  List.NoDup (List.map id (notifications st)) -> 0 <= drift st ->
  In n (notifications st) -> is_read n = false ->
  List.NoDup (List.map id (notifications (markAsRead r now (id n) st))) /\
  drift (markAsRead r now (id n) st) = drift st.
Proof.
  intros Hnd Hd Hin Hn. destruct r; [|auto].
  unfold drift in *. simpl. rewrite map_ids_mark. split; [exact Hnd|].
  rewrite unread_in_mark by assumption.
  pose proof (listed_unread_positive n _ Hin Hn). lia.
Qed.

Lemma deleteNotification_listed (r : bool) (n : Notification) (st : State) :
  List.NoDup (List.map id (notifications st)) -> 0 <= drift st ->
  In n (notifications st) ->
  List.NoDup
    (List.map id
       (notifications (deleteNotification r (notifications st) (id n) st))) /\
  drift (deleteNotification r (notifications st) (id n) st) = drift st.
Proof.
  intros Hnd Hd Hin. destruct r; [|auto].
  unfold drift in *. simpl. split; [apply NoDup_ids_filter; exact Hnd|].
  rewrite find_listed, unread_in_delete by assumption.
  destruct (is_read n) eqn:Hn; simpl; [lia|].
  pose proof (listed_unread_positive n _ Hin Hn). lia.
Qed.

(** X1.  With distinct ids and a counter that is not below the unread
    entries listed, a click on a row, on its "Mark as read" button or on
    its "Delete" button, made on the dropdown as rendered from the current
    state, keeps the ids distinct and moves the counter exactly with the
    list: the drift is unchanged. *)
Theorem row_click_keeps_drift (ev : Event) (st : State) :
  match ev with
  | ClickRow _ _ _ _ | ClickCheck _ _ _ _ | ClickDelete _ _ _ => True
  | _ => False
  end ->
  current ev st ->
  List.NoDup (List.map id (notifications st)) ->
  0 <= drift st ->
  List.NoDup (List.map id (notifications (on_event ev st))) /\
  drift (on_event ev st) = drift st.
Proof.
  intros Hev Hcur Hnd Hd.
  destruct ev as [resp|r now rendered row|r now rendered row|r now shown
                 |r rendered row];
    try contradiction; simpl in Hcur; subst rendered; simpl.
  - destruct (List.nth_error _ row) as [n|] eqn:E; [|auto].
    apply List.nth_error_In in E. unfold handleNotificationClick.
    destruct (is_read n) eqn:Hn; simpl; [auto|].
    apply markAsRead_listed; assumption.
  - destruct (List.nth_error _ row) as [n|] eqn:E; [|auto].
    apply List.nth_error_In in E.
    destruct (is_read n) eqn:Hn; simpl; [auto|].
    apply markAsRead_listed; assumption.
  - destruct (List.nth_error _ row) as [n|] eqn:E; [|auto].
    apply List.nth_error_In in E.
    apply deleteNotification_listed; assumption.
Qed.

Lemma row_click_keeps_drift_witness :
  drift (on_event
           (ClickDelete true
              (notifications (refreshUnreadCount (Some 5) Samples.two_unread))
              1)
           (refreshUnreadCount (Some 5) Samples.two_unread)) = 3.
Proof.
  refine (eq_trans (proj2 (row_click_keeps_drift
            (ClickDelete true
               (notifications (refreshUnreadCount (Some 5) Samples.two_unread))
               1)
            (refreshUnreadCount (Some 5) Samples.two_unread) I _ _ _)) _).
  - reflexivity.
  - simpl. repeat constructor; simpl; intuition discriminate.
  - discriminate.
  - reflexivity.
Defined.

(** A second click on a row that has not been rendered again is another
    matter: both handlers see the entry unread, [markAsRead] runs twice,
    and the counter falls below the unread entries listed. *)
Example two_clicks_on_one_render :
  let rendered := notifications Samples.two_unread in
  let st := handle [ClickRow true 100 rendered 0; ClickRow true 110 rendered 0]
                   Samples.two_unread in
  unreadCount st = 0 /\ unread_in (notifications st) = 1 /\ drift st = -1.
Proof. repeat split. Qed.

Lemma in_sync_of_drift (st st' : State) :
  in_sync st ->
  List.NoDup (List.map id (notifications st')) /\ drift st' = drift st ->
  in_sync st'.
Proof.
  intros [_ Heq] [Hnd Hdr]. split; [exact Hnd|].
  unfold drift in Hdr. lia.
Qed.

Lemma on_event_in_sync (ev : Event) (st : State) :
  exact ev -> current ev st -> in_sync st -> in_sync (on_event ev st).
Proof.
  intros Hex Hcur Hst. pose proof Hst as [Hnd Heq].
  assert (Hd : 0 <= drift st) by (unfold drift; lia).
  destruct ev as [resp|r now rendered row|r now rendered row|r now shown
                 |r rendered row];
    simpl in Hcur; try subst rendered; simpl.
  - destruct resp as [data|]; simpl; [exact Hex | split; assumption].
  - destruct (List.nth_error _ row) as [n|] eqn:E; [|exact Hst].
    apply List.nth_error_In in E. unfold handleNotificationClick.
    destruct (is_read n) eqn:Hn; simpl; [exact Hst|].
    apply (in_sync_of_drift st); [exact Hst|].
    apply markAsRead_listed; assumption.
  - destruct (List.nth_error _ row) as [n|] eqn:E; [|exact Hst].
    apply List.nth_error_In in E.
    destruct (is_read n) eqn:Hn; simpl; [exact Hst|].
    apply (in_sync_of_drift st); [exact Hst|].
    apply markAsRead_listed; assumption.
  - destruct (0 <? shown); [|exact Hst].
    destruct r; simpl; [|exact Hst].
    split; simpl.
    + rewrite List.map_map. simpl. exact Hnd.
    + rewrite unread_in_all_read. reflexivity.
  - destruct (List.nth_error _ row) as [n|] eqn:E; [|exact Hst].
    apply List.nth_error_In in E.
    apply (in_sync_of_drift st); [exact Hst|].
    apply deleteNotification_listed; assumption.
Qed.

(** X2.  Starting in sync (each notification listed once, the counter
    equal to the number of unread entries listed), the dropdown stays in
    sync through any sequence of fetches with exact responses, row clicks,
    "Mark as read", "Mark all read" and "Delete" clicks, whether the
    requests resolve or are rejected, as long as every click is made on
    the dropdown as rendered from the current state. *)
Theorem dropdown_stays_in_sync (evs : list Event) (st : State) :
  Forall exact evs -> all_current evs st -> in_sync st ->
  in_sync (handle evs st).
Proof.
  revert st. induction evs as [|ev evs IH]; intros st Hex Hcur Hst;
    [exact Hst|].
  apply Forall_cons_iff in Hex as [Hev Hevs]. destruct Hcur as [Hc Hcs].
  simpl. apply IH; [exact Hevs | exact Hcs|].
  apply on_event_in_sync; assumption.
Qed.

Lemma dropdown_stays_in_sync_witness :
  in_sync (handle [ClickRow true 100 (notifications Samples.two_unread) 0;
                   ClickDelete true
                     [Samples.note 1 true (Some (iso 100));
                      Samples.note 2 false None] 1;
                   Fetch None; ClickMarkAll false 120 0]
                  Samples.two_unread).
Proof.
  apply dropdown_stays_in_sync.
  - repeat constructor.
  - simpl. repeat split.
  - split; [|reflexivity].
    simpl. repeat constructor; simpl; intuition discriminate.
Defined.

(** X3.  A resolved [deleteNotification] for an id that is not in the
    current list leaves the list as it is and still lowers [totalCount] by
    one; the total is not clamped.  The unread counter is unchanged when
    the list the handler was rendered with does not hold the id either,
    and takes the clamped decrement when that list still shows the entry
    unread. *)
Theorem delete_unknown_id (rendered : list Notification) (nid : Z)
    (st : State) :
  ~ In nid (List.map id (notifications st)) ->
  notifications (deleteNotification true rendered nid st) = notifications st /\
  totalCount (deleteNotification true rendered nid st) = totalCount st - 1 /\
  (~ In nid (List.map id rendered) ->
   unreadCount (deleteNotification true rendered nid st) = unreadCount st) /\
  (forall n, In n rendered -> id n = nid -> is_read n = false ->
             List.NoDup (List.map id rendered) ->
   unreadCount (deleteNotification true rendered nid st)
     = Z.max 0 (unreadCount st - 1)).
Proof.
  intros H. simpl. rewrite filter_other_ids by exact H.
  split; [reflexivity|]. split; [reflexivity|]. split.
  - intros Hr.
    destruct (List.find _ _) as [n|] eqn:E; [|reflexivity].
    apply List.find_some in E as [Hin Heq]. apply Z.eqb_eq in Heq.
    exfalso. apply Hr. rewrite <- Heq. apply List.in_map. exact Hin.
  - intros n Hin <- Hn Hnd.
    rewrite find_listed by assumption. rewrite Hn. reflexivity.
Qed.

Lemma delete_unknown_id_witness :
  totalCount (deleteNotification true [] 9 initial) = -1.
Proof.
  refine (proj1 (proj2 (delete_unknown_id [] 9 initial _))).
  simpl. tauto.
Defined.

(** X4.  A resolved [markAllAsRead] keeps the entries and their order,
    leaves none unread, stamps every entry, read before or not, with the
    current time, and sets the counter to 0. *)
Theorem markAllAsRead_clears (now : Z) (st : State) :
  List.map id (notifications (markAllAsRead true now st)) =
    List.map id (notifications st) /\
  (forall n, In n (notifications (markAllAsRead true now st)) ->
             is_read n = true /\ read_at n = Some (iso now)) /\
  unread_in (notifications (markAllAsRead true now st)) = 0 /\
  unreadCount (markAllAsRead true now st) = 0.
Proof.
  simpl. split; [rewrite List.map_map; reflexivity|].
  split; [|split; [apply unread_in_all_read | reflexivity]].
  intros n Hin. apply List.in_map_iff in Hin as (x & <- & _).
  split; reflexivity.
Qed.

Lemma markAllAsRead_clears_witness :
  is_read (set_read 9 (Samples.note 1 false None)) = true /\
  read_at (set_read 9 (Samples.note 1 false None)) = Some (iso 9).
Proof.
  apply (proj1 (proj2 (markAllAsRead_clears 9 Samples.two_unread))).
  simpl. left. reflexivity.
Defined.

Section FormatTimeProps.

Variable toLocaleDateString : ISOString -> string.

(** X5.  [formatTime] by elapsed time: under one minute (or a date in the
    future) "Just now"; from one minute to under an hour the whole minutes,
    between 1 and 59; from one hour to under a day the whole hours, between
    1 and 23; from one day on the locale's date. *)
Theorem formatTime_buckets (now : Z) (d : ISOString) :
  (now - epoch d < 60000 ->
   formatTime toLocaleDateString now d = "Just now") /\
  (60000 <= now - epoch d < 3600000 ->
   formatTime toLocaleDateString now d =
     String.append (pretty ((now - epoch d) / 60000)) "m ago" /\
   1 <= (now - epoch d) / 60000 <= 59) /\
  (3600000 <= now - epoch d < 86400000 ->
   formatTime toLocaleDateString now d =
     String.append (pretty ((now - epoch d) / 3600000)) "h ago" /\
   1 <= (now - epoch d) / 3600000 <= 23) /\
  (86400000 <= now - epoch d ->
   formatTime toLocaleDateString now d = toLocaleDateString d).
Proof.
  unfold formatTime. set (e := now - epoch d).
  change (1000 * 60) with 60000.
  assert (Hh : e / 60000 / 60 = e / 3600000).
  { rewrite Z.div_div by lia. reflexivity. }
  split; [|split; [|split]].
  - intros H.
    assert (e / 60000 < 1) by (apply Z.div_lt_upper_bound; lia).
    destruct (e / 60000 <? 1) eqn:E; [reflexivity|].
    apply Z.ltb_ge in E. lia.
  - intros H.
    assert (1 <= e / 60000) by (apply Z.div_le_lower_bound; lia).
    assert (e / 60000 < 60) by (apply Z.div_lt_upper_bound; lia).
    split; [|lia].
    destruct (e / 60000 <? 1) eqn:E1; [apply Z.ltb_lt in E1; lia|].
    destruct (e / 60000 <? 60) eqn:E2; [reflexivity|].
    apply Z.ltb_ge in E2. lia.
  - intros H.
    assert (60 <= e / 60000) by (apply Z.div_le_lower_bound; lia).
    assert (e / 60000 < 1440) by (apply Z.div_lt_upper_bound; lia).
    assert (1 <= e / 3600000) by (apply Z.div_le_lower_bound; lia).
    assert (e / 3600000 < 24) by (apply Z.div_lt_upper_bound; lia).
    split; [|lia].
    destruct (e / 60000 <? 1) eqn:E1; [apply Z.ltb_lt in E1; lia|].
    destruct (e / 60000 <? 60) eqn:E2; [apply Z.ltb_lt in E2; lia|].
    destruct (e / 60000 <? 1440) eqn:E3; [|apply Z.ltb_ge in E3; lia].
    rewrite Hh. reflexivity.
  - intros H.
    assert (1440 <= e / 60000) by (apply Z.div_le_lower_bound; lia).
    destruct (e / 60000 <? 1) eqn:E1; [apply Z.ltb_lt in E1; lia|].
    destruct (e / 60000 <? 60) eqn:E2; [apply Z.ltb_lt in E2; lia|].
    destruct (e / 60000 <? 1440) eqn:E3; [apply Z.ltb_lt in E3; lia|].
    reflexivity.
Qed.

End FormatTimeProps.

Lemma formatTime_buckets_witness :
  formatTime (fun _ => "Jan 1, 1970") Samples.t_1012 (iso Samples.t_1003)
  = "9m ago".
Proof.
  refine (proj1 (proj1 (proj2 (formatTime_buckets (fun _ => "Jan 1, 1970")
            Samples.t_1012 (iso Samples.t_1003))) _)).
  split; vm_compute; [discriminate | reflexivity].
Defined.

End BellProps.

(** ** The capture page as a whole *)

Module SessionProps.
Import JS AttendanceCapture.
Local Open Scope Z_scope.

Lemma clicks_cons (env : Env) (ev : Click) (evs : list Click) (st : State) :
  clicks env (ev :: evs) st =
  (fst (clicks env evs (fst (click env ev st))),
   snd (click env ev st) ++ snd (clicks env evs (fst (click env ev st)))).
Proof.
  simpl. destruct (click env ev st) as [st1 sent1]. simpl.
  destruct (clicks env evs st1) as [st2 sent2]. reflexivity.
Qed.

Lemma captureAndProcess_tiles (env : Env) (c : Capture) (st : State) :
  tiles_agree st -> tiles_agree (fst (captureAndProcess env c st)).
Proof.
  unfold tiles_agree. intros (Ht & Hr & Hs & Hp).
  unfold captureAndProcess.
  destruct (frame c); simpl; [|auto].
  destruct (verify c) as [data|]; simpl; [|auto].
  destruct (matched data); simpl;
    [destruct (verified_user data) as [u|]; simpl;
     [destruct (isEnrolled st u); simpl|]|];
    rewrite List.length_app, List.filter_app, List.length_app; simpl;
    repeat split; lia.
Qed.

Lemma click_tiles (env : Env) (ev : Click) (st : State) :
  tiles_agree st -> tiles_agree (fst (click env ev st)).
Proof.
  intros H. unfold click.
  destruct ev as [course|now| |c]; [exact H| | |];
    destruct (selectedCourse st) as [course|] eqn:Hc; simpl; try exact H;
    destruct (isCapturing st); simpl; try exact H.
  - unfold startCapture. rewrite Hc. repeat split.
  - apply captureAndProcess_tiles. exact H.
Qed.

(** X6.  Whatever is clicked on the capture page, in any order and with
    any verifier answers, the four tiles agree with the list of detected
    faces: Total Detected is the number of faces listed and the sum of
    Recognized and Unknown, Recognized is the number of faces listed as
    recognized, and Present equals Recognized. *)
Theorem tiles_always_agree (env : Env) (evs : list Click) :
  tiles_agree (fst (clicks env evs mounted)).
Proof.
  assert (H : forall st, tiles_agree st -> tiles_agree (fst (clicks env evs st))).
  { induction evs as [|ev evs IH]; intros st Hst; [exact Hst|].
    rewrite clicks_cons. simpl. apply IH. apply click_tiles. exact Hst. }
  apply H. repeat split.
Qed.

Lemma click_session_open (env : Env) (ev : Click) (st : State) :
  session_open st -> session_open (fst (click env ev st)).
Proof.
  intros H. unfold click.
  destruct ev as [course|now| |c].
  - simpl. intros Hc. split; [discriminate | apply H; exact Hc].
  - destruct (selectedCourse st) as [course|] eqn:Hc; simpl; [|exact H].
    destruct (isCapturing st) eqn:Hi; simpl; [exact H|].
    unfold startCapture. rewrite Hc. intros _. split; discriminate.
  - destruct (selectedCourse st) as [course|] eqn:Hc; simpl; [|exact H].
    destruct (isCapturing st) eqn:Hi; simpl; [discriminate|exact H].
  - destruct (selectedCourse st) as [course|] eqn:Hc; simpl; [|exact H].
    destruct (isCapturing st) eqn:Hi; simpl; [|exact H].
    intros _.
    destruct (CaptureProps.captureAndProcess_keeps_session env c st)
      as [-> ->].
    destruct (H Hi) as [_ Hs]. split; [rewrite Hc; discriminate | exact Hs].
Qed.

Lemma clicks_session_open (env : Env) (evs : list Click) (st : State) :
  session_open st -> session_open (fst (clicks env evs st)).
Proof.
  revert st. induction evs as [|ev evs IH]; intros st Hst; [exact Hst|].
  rewrite clicks_cons. simpl. apply IH. apply click_session_open. exact Hst.
Qed.

Lemma captureAndProcess_present (env : Env) (c : Capture) (st : State) :
  selectedCourse st <> None -> sessionStartTime st <> None ->
  List.length (posted (snd (captureAndProcess env c st))) =
    (if enrolled_match c st then 1 else 0)%nat /\
  presentStudents (sessionStats (fst (captureAndProcess env c st))) =
    presentStudents (sessionStats st) +
    (if enrolled_match c st then 1 else 0).
Proof.
  intros Hc Hs. unfold captureAndProcess, enrolled_match.
  destruct (frame c); simpl; [|split; [reflexivity|lia]].
  destruct (verify c) as [data|]; simpl; [|split; [reflexivity|lia]].
  destruct (matched data); simpl; [|split; [reflexivity|lia]].
  destruct (verified_user data) as [u|]; simpl; [|split; [reflexivity|lia]].
  destruct (isEnrolled st u); simpl; [|split; [reflexivity|lia]].
  unfold markAttendance.
  destruct (selectedCourse st); [|contradiction].
  destruct (sessionStartTime st); [|contradiction].
  simpl. split; [reflexivity|lia].
Qed.

(** X7.  On the page as it can be reached by clicks, a click on "Capture &
    Process" sends exactly one attendance request, and raises the Present
    tile by one, when the button is rendered (a session is running), a
    frame was captured and the verifier matched a user enrolled in the
    selected course; in every other case it sends no attendance request
    and leaves the Present tile as it is.  A student is never counted
    present without a request, nor the other way round. *)
Theorem present_counts_requests (env : Env) (evs : list Click) (c : Capture) :
  List.length
    (posted (snd (click env (ClickCapture c)
                    (fst (clicks env evs mounted))))) =
    (if isCapturing (fst (clicks env evs mounted))
        && enrolled_match c (fst (clicks env evs mounted))
     then 1 else 0)%nat /\
  presentStudents
    (sessionStats (fst (click env (ClickCapture c)
                          (fst (clicks env evs mounted))))) =
  presentStudents (sessionStats (fst (clicks env evs mounted))) +
  (if isCapturing (fst (clicks env evs mounted))
      && enrolled_match c (fst (clicks env evs mounted))
   then 1 else 0).
Proof.
  assert (Hopen : session_open (fst (clicks env evs mounted))).
  { apply clicks_session_open. intros H. discriminate H. }
  set (st := fst (clicks env evs mounted)) in *.
  unfold click.
  destruct (isCapturing st) eqn:Hi; simpl.
  - destruct (Hopen Hi) as [Hc Hs].
    destruct (selectedCourse st) as [course|] eqn:Ec; [|contradiction].
    apply captureAndProcess_present; [rewrite Ec; discriminate | exact Hs].
  - destruct (selectedCourse st); simpl; split; (reflexivity || lia).
Qed.



(** X9.  Choosing another course while a session runs keeps the session:
    its start time, its faces and its tiles.  The next enrolled capture is
    sent for the new course with the start time of the running session. *)
Theorem course_switch_keeps_session
    (env : Env) (st : State) (course : Course) (start : Z)
    (c : Capture) (data : VerifyData) (u s : User) :
  sessionStartTime st = Some start ->
  frame c = true -> verify c = Some data ->
  matched data = true -> verified_user data = Some u ->
  In s (enrolled_students course) -> user_id s = user_id u ->
  sessionStartTime (selectCourse course st) = Some start /\
  detectedFaces (selectCourse course st) = detectedFaces st /\
  sessionStats (selectCourse course st) = sessionStats st /\
  exists d,
    posted (snd (captureAndProcess env c (selectCourse course st))) = [d] /\
    att_course_id d = pretty (course_id course) /\
    att_course_code d = course_code course /\
    session_start d = iso start /\
    att_user_id d = user_id u.
Proof.
  intros Hs Hf Hv Hm Hu Hin Hid.
  split; [exact Hs|]. split; [reflexivity|]. split; [reflexivity|].
  assert (He : isEnrolled (selectCourse course st) u = true).
  { apply CaptureProps.isEnrolled_true_iff. exists course, s. auto. }
  unfold captureAndProcess. rewrite Hf, Hv, Hm, Hu, He. simpl.
  unfold markAttendance. simpl. rewrite Hs. simpl.
  eexists. split; [reflexivity|]. simpl. auto.
Qed.

Lemma course_switch_keeps_session_witness :
  sessionStartTime (selectCourse Samples.c101 Samples.session_1000)
  = Some Samples.t_1000.
Proof.
  exact (proj1 (course_switch_keeps_session
                  Samples.env0 Samples.session_1000 Samples.c101
                  Samples.t_1000
                  (Samples.sees Samples.alice (92 # 100) Samples.t_1003)
                  (mkVerify true (Some Samples.alice) (Some (92 # 100)))
                  Samples.alice Samples.alice
                  eq_refl eq_refl eq_refl eq_refl eq_refl
                  (or_introl eq_refl) eq_refl)).
Defined.

End SessionProps.

(** ** The admin enrollment form *)

Module FormProps.
Import Enrollment.
Local Open Scope Z_scope.

Lemma find_other_role (users : list User) (u : User) :
  List.NoDup (List.map user_id users) -> In u users ->
  role u <> "student" ->
  List.find (fun user => user_id user =? user_id u) (studentsOf users) = None.
Proof.
  intros Hnd Hin Hrole.
  destruct (List.find _ _) as [v|] eqn:E; [|reflexivity].
  apply List.find_some in E as [Hv Heq]. apply Z.eqb_eq in Heq.
  apply List.filter_In in Hv as [Hv Hr]. apply String.eqb_eq in Hr.
  assert (v = u); [|congruence].
  clear Hrole Hr. induction users as [|x l IH]; [contradiction|].
  simpl in Hnd. apply (proj1 (List.NoDup_cons_iff _ _)) in Hnd as [Hx Hl].
  destruct Hv as [->|Hv], Hin as [->|Hin]; auto.
  - exfalso. apply Hx. rewrite Heq. apply List.in_map. exact Hin.
  - exfalso. apply Hx. rewrite <- Heq. apply List.in_map. exact Hv.
Qed.

(** X10.  In the enrollment form, [getInstructorName] looks the
    instructor up among the users whose role is [student]: with distinct
    user ids, the name shown for a course taught by any user who is not a
    student is "Unknown". *)
Theorem instructor_name_is_unknown (users : list User) (u : User) :
  List.NoDup (List.map user_id users) -> In u users ->
  role u <> "student" ->
  getInstructorName (studentsOf users) (user_id u) = "Unknown".
Proof.
  intros Hnd Hin Hrole. unfold getInstructorName.
  rewrite find_other_role by assumption. reflexivity.
Qed.

Section SearchProps.

Variable toLowerCase : string -> string.
Variable includes : string -> string -> bool.

(** X11.  A student picked from the list the form offers for the selected
    course is one of the loaded students, matches the search, and is not
    among the course's [enrolled_students]; the request [handleEnrollStudent]
    then sends names that course and that student. *)
Theorem offered_student_is_new
    (students : list User) (course : Course) (term : string)
    (s : User) (st : FormState) :
  selectedCourse st = Some course ->
  In s (filteredStudents toLowerCase includes students (selectedCourse st) term) ->
  selectedStudent st = user_id s ->
  user_id s <> 0 ->
  In s students /\
  matchesSearch toLowerCase includes term s = true /\
  (forall e, In e (enrolled_students course) -> user_id e <> user_id s) /\
  handleEnrollStudent st = Some (course_id course, user_id s).
Proof.
  intros Hc Hin Hsel Hnz. rewrite Hc in Hin.
  unfold filteredStudents in Hin. apply List.filter_In in Hin as [Hin Hp].
  apply andb_true_iff in Hp as [He Hm]. apply negb_true_iff in He.
  split; [exact Hin|]. split; [exact Hm|]. split.
  - intros e He' Heq.
    assert (Ht : List.existsb (fun enrolled => user_id enrolled =? user_id s)
                              (enrolled_students course) = true).
    { apply List.existsb_exists. exists e. split; [exact He'|].
      apply Z.eqb_eq. exact Heq. }
    congruence.
  - unfold handleEnrollStudent. rewrite Hc, Hsel.
    apply Z.eqb_neq in Hnz. rewrite Hnz. reflexivity.
Qed.

End SearchProps.

End FormProps.

Lemma instructor_name_is_unknown_witness :
  Enrollment.getInstructorName (Enrollment.studentsOf Samples.users) 3
  = "Unknown".
Proof.
  refine (FormProps.instructor_name_is_unknown Samples.users
            (Enrollment.mkUser 3 "Carol" "carol@example.edu" "instructor"
               "CS" None) _ _ _).
  - simpl. repeat constructor; simpl; intuition discriminate.
  - simpl. tauto.
  - discriminate.
Defined.

Lemma offered_student_is_new_witness :
  Enrollment.handleEnrollStudent
    (Enrollment.mkForm (Some Samples.full_course) true 5) = Some (101%Z, 5%Z).
Proof.
  refine (proj2 (proj2 (proj2 (FormProps.offered_student_is_new
            Samples.same_case Samples.always_found
            [Samples.some_student 1; Samples.some_student 5]
            Samples.full_course "stu" (Samples.some_student 5)
            (Enrollment.mkForm (Some Samples.full_course) true 5)
            eq_refl _ eq_refl _)))).
  - simpl. left. reflexivity.
  - discriminate.
Defined.

(** ** Navigation and the stored session *)

Module AppNavProps.
Import JS AppSession App.

Lemma nav_ids (u : JSON) :
  List.map item_id (getNavItems u) =
  "dashboard" ::
  (if has_role u "admin" then ["courses"] else []) ++
  (if has_role u "instructor" then ["attendance"] else []) ++
  "profile" ::
  (if has_role u "admin" then ["settings"] else []).
Proof.
  unfold getNavItems.
  destruct (has_role u "instructor"), (has_role u "admin"); reflexivity.
Qed.

Lemma has_role_truthy (u : JSON) (r : string) :
  has_role u r = true -> truthy u = true.
Proof.
  unfold has_role, get. destruct u; try discriminate. reflexivity.
Qed.

Lemma has_role_unique (u : JSON) (r1 r2 : string) :
  has_role u r1 = true -> has_role u r2 = true -> r1 = r2.
Proof.
  unfold has_role. destruct (get u "role") as [[| | |s| |]|]; try discriminate.
  intros H1 H2. apply String.eqb_eq in H1, H2. congruence.
Qed.

(** A view the navigation offers opens a component meant for the user. *)
Lemma offered_view_meant_for (st : State) (c : Component) :
  view_offered st -> renderCurrentView st = Some c ->
  meant_for c (user st) = true.
Proof.
  unfold view_offered, renderCurrentView.
  destruct (truthy (user st)) eqn:Ht; simpl; [|discriminate].
  rewrite nav_ids. intros Hin.
  destruct (has_role (user st) "admin") eqn:Ha,
           (has_role (user st) "instructor") eqn:Hi;
    simpl in Hin;
    repeat (destruct Hin as [<-|Hin]; simpl;
            [try rewrite Ha; try rewrite Hi;
             try (destruct (has_role (user st) "student") eqn:Hs);
             intros [= <-]; simpl; assumption || reflexivity|]);
    contradiction.
Qed.

Section HandlerProps.

Variable JSON_stringify : JSON -> string.

Lemma dashboard_offered (u : JSON) :
  In "dashboard" (List.map item_id (getNavItems u)).
Proof. rewrite nav_ids. left. reflexivity. Qed.

Lemma on_event_view_offered (ev : Event) (w : State * gmap string string) :
  view_offered (fst w) -> view_offered (fst (on_event JSON_stringify ev w)).
Proof.
  destruct w as [st ls]. unfold view_offered. simpl.
  destruct ev as [tok u| |i]; simpl;
    destruct (truthy (user st)) eqn:Ht; simpl; try rewrite Ht; auto.
  - intros ->. destruct (truthy u); [apply dashboard_offered | reflexivity].
  - destruct (List.nth_error _ i) as [item|] eqn:E; simpl;
      [|rewrite Ht; auto].
    rewrite Ht. intros _. apply List.in_map.
    apply List.nth_error_In in E. exact E.
Qed.

Lemma handle_view_offered (evs : list Event) (w : State * gmap string string) :
  view_offered (fst w) -> view_offered (fst (handle JSON_stringify evs w)).
Proof.
  revert w. induction evs as [|ev evs IH]; intros w H; [exact H|].
  simpl. apply IH. apply on_event_view_offered. exact H.
Qed.

Lemma restore_view_offered (JSON_parse : string -> Result JSON)
    (ls : gmap string string) (w : State * gmap string string) :
  restore JSON_parse initial ls = Return w -> view_offered (fst w).
Proof.
  unfold restore.
  destruct (ls !! user_key) as [s|]; [|intros [= <-]; reflexivity].
  destruct (truthy_string s); [|intros [= <-]; reflexivity].
  destruct (JSON_parse s) as [v|e]; simpl; intros [= <-]; simpl;
    [|reflexivity].
  unfold view_offered. simpl.
  destruct (truthy v); [apply dashboard_offered | reflexivity].
Qed.

(** X12.  From the application start, with any stored session, and
    through any sequence of sign-ins, sign-outs and clicks in the
    navigation, the component shown is one meant for the role of the
    signed-in user: the student dashboard only for a student, the
    instructor dashboard and the attendance capture only for an
    instructor, the admin dashboard and the course management only for an
    admin.  The [default] branch of [renderCurrentView] is never reached. *)
Theorem view_matches_role
    (JSON_parse : string -> Result JSON) (ls : gmap string string)
    (w : State * gmap string string) (evs : list Event) (c : Component) :
  restore JSON_parse initial ls = Return w ->
  renderCurrentView (fst (handle JSON_stringify evs w)) = Some c ->
  meant_for c (user (fst (handle JSON_stringify evs w))) = true /\
  In (currentView (fst (handle JSON_stringify evs w)))
     ["dashboard"; "attendance"; "courses"; "profile"; "settings"].
Proof.
  intros Hr Hc.
  assert (Hv : view_offered (fst (handle JSON_stringify evs w))).
  { apply handle_view_offered. eapply restore_view_offered. exact Hr. }
  split; [apply offered_view_meant_for; assumption|].
  unfold view_offered in Hv. unfold renderCurrentView in Hc.
  destruct (truthy (user _)); [|discriminate].
  rewrite nav_ids in Hv.
  destruct (has_role _ "admin"), (has_role _ "instructor");
    simpl in Hv; simpl; tauto.
Qed.

(** X13.  For a signed-in student, instructor or admin, every button of
    the navigation opens a component: no entry of the menu leads to an
    empty page. *)
Theorem every_nav_item_opens (st : State) (item : NavItem) :
  has_role (user st) "student" || has_role (user st) "instructor"
    || has_role (user st) "admin" = true ->
  In item (getNavItems (user st)) ->
  exists c, renderCurrentView (navigate item st) = Some c.
Proof.
  intros Hrole Hin.
  assert (Ht : truthy (user st) = true).
  { apply orb_true_iff in Hrole as [Hrole|Hrole];
      [apply orb_true_iff in Hrole as [Hrole|Hrole]|];
      eapply has_role_truthy; eauto. }
  apply (List.in_map item_id) in Hin. rewrite nav_ids in Hin.
  unfold renderCurrentView, navigate. simpl. rewrite Ht. simpl.
  destruct (has_role (user st) "admin") eqn:Ha,
           (has_role (user st) "instructor") eqn:Hi,
           (has_role (user st) "student") eqn:Hs;
    try discriminate Hrole; simpl in Hin;
    repeat (destruct Hin as [<-|Hin]; [simpl; eauto|]);
    contradiction.
Qed.

(** X14.  Signing in and loading the page again restores the same user:
    if [JSON.parse] reads back what [JSON.stringify] wrote for the user,
    and that text is not empty, then after a successful sign-in the token
    and the user are stored, the session restore yields that user, and a
    non-empty token is sent as [Authorization: Bearer <token>]. *)
Theorem sign_in_survives_reload
    (JSON_parse : string -> Result JSON) (access_token : string)
    (userData : JSON) (w : State * gmap string string) :
  JSON_parse (JSON_stringify userData) = Return userData ->
  JSON_stringify userData <> EmptyString ->
  user (fst (loggedIn JSON_stringify access_token userData w)) = userData /\
  snd (loggedIn JSON_stringify access_token userData w) !! token_key
    = Some access_token /\
  restore JSON_parse initial
          (snd (loggedIn JSON_stringify access_token userData w))
    = Return (setUser userData initial,
              snd (loggedIn JSON_stringify access_token userData w)) /\
  (access_token <> EmptyString ->
   forall headers,
     Api.requestInterceptor
       (snd (loggedIn JSON_stringify access_token userData w)) headers
     !! "Authorization" = Some (String.append "Bearer " access_token)).
Proof.
  intros Hp Hne. destruct w as [st ls]. unfold loggedIn, handleLogin. simpl.
  assert (Hk : user_key <> token_key) by discriminate.
  split; [reflexivity|]. split.
  - rewrite !lookup_insert_ne by exact Hk. apply lookup_insert_eq.
  - split.
    + apply (AppProps.restore_accepted JSON_parse initial _
               (JSON_stringify userData) userData);
        [apply lookup_insert_eq | exact Hne | exact Hp].
    + intros Ht headers. unfold Api.requestInterceptor.
      rewrite !lookup_insert_ne by exact Hk. rewrite lookup_insert_eq.
      assert (Htr : truthy_string access_token = true).
      { unfold truthy_string. apply negb_true_iff, String.eqb_neq. exact Ht. }
      rewrite Htr. apply lookup_insert_eq.
Qed.

End HandlerProps.

Lemma all_gone (JSON_parse : string -> Result JSON)
    (ls : gmap string string) :
  ls !! user_key = None -> ls !! token_key = None ->
  Api.signed_out JSON_parse ls.
Proof.
  intros Hu Ht. unfold Api.signed_out.
  split; [exact Hu|]. split; [exact Ht|]. split.
  - unfold start, restore. rewrite Hu. reflexivity.
  - intros headers. unfold Api.requestInterceptor. rewrite Ht. reflexivity.
Qed.

(** X15.  Each of the three ways a session ends, [handleLogout], a
    response with status 401, and [removeAuthToken], leaves a storage that
    holds no session: both keys are gone, the next application start shows
    the auth page without throwing, and later requests carry no
    [Authorization] header.  [handleLogout] also returns to the dashboard
    view, and a 401 redirects to the root address. *)
Theorem session_end_clears_storage
    (JSON_parse : string -> Result JSON) (w : State * gmap string string) :
  Api.signed_out JSON_parse (snd (handleLogout w)) /\
  user (fst (handleLogout w)) = JNull /\
  currentView (fst (handleLogout w)) = "dashboard" /\
  Api.signed_out JSON_parse (fst (Api.responseRejected (Some 401%Z) (snd w))) /\
  snd (Api.responseRejected (Some 401%Z) (snd w)) = Some "/" /\
  Api.signed_out JSON_parse (Api.removeAuthToken (snd w)).
Proof.
  assert (Hk : user_key <> token_key) by discriminate.
  assert (Hk' : token_key <> user_key) by discriminate.
  assert (H1 : forall ls : gmap string string,
             Api.signed_out JSON_parse (delete token_key (delete user_key ls))).
  { intros ls. apply all_gone.
    - rewrite lookup_delete_ne by exact Hk'. apply lookup_delete_eq.
    - apply lookup_delete_eq. }
  assert (H2 : forall ls : gmap string string,
             Api.signed_out JSON_parse (delete user_key (delete token_key ls))).
  { intros ls. apply all_gone.
    - apply lookup_delete_eq.
    - rewrite lookup_delete_ne by exact Hk. apply lookup_delete_eq. }
  split; [apply H1|]. split; [reflexivity|]. split; [reflexivity|].
  split; [apply H2|]. split; [reflexivity|]. apply H2.
Qed.

End AppNavProps.

Lemma view_matches_role_witness :
  App.meant_for App.AttendanceCapture Samples.carol = true.
Proof.
  refine (proj1 (AppNavProps.view_matches_role Samples.stringify_carol
            Samples.parse_carol {[ AppSession.user_key := "carol" ]}
            (AppSession.setUser Samples.carol AppSession.initial,
             {[ AppSession.user_key := "carol" ]})
            [App.Navigate 1] App.AttendanceCapture _ _)).
  - reflexivity.
  - reflexivity.
Defined.

Lemma every_nav_item_opens_witness :
  exists c,
    App.renderCurrentView
      (App.navigate (App.mkItem "attendance" "Take Attendance" App.Camera)
         (AppSession.setUser Samples.carol AppSession.initial)) = Some c.
Proof.
  apply AppNavProps.every_nav_item_opens.
  - reflexivity.
  - simpl. right. left. reflexivity.
Defined.

Lemma sign_in_survives_reload_witness :
  AppSession.restore Samples.parse_carol AppSession.initial
    (snd (App.loggedIn Samples.stringify_carol "t0k3n" Samples.carol
            (AppSession.initial, ∅)))
  = JS.Return
      (AppSession.setUser Samples.carol AppSession.initial,
       snd (App.loggedIn Samples.stringify_carol "t0k3n" Samples.carol
              (AppSession.initial, ∅))).
Proof.
  refine (proj1 (proj2 (proj2 (AppNavProps.sign_in_survives_reload
            Samples.stringify_carol Samples.parse_carol "t0k3n"
            Samples.carol (AppSession.initial, ∅) _ _)))).
  - reflexivity.
  - discriminate.
Defined.

(** ** The course form *)

Module CourseFormProps.
Import CourseManagement.
Local Open Scope Z_scope.

Section BuiltinProps.

Variable trim : string -> string.
Variable parseInt : string -> option Z.

Lemma parsed_or_50_nonzero (value : string) : parsed_or_50 parseInt value <> 0.
Proof.
  unfold parsed_or_50. destruct (parseInt value) as [n|]; [|discriminate].
  destruct (n =? 0) eqn:E; [discriminate|]. apply Z.eqb_neq. exact E.
Qed.

(** X16.  Whatever is typed into the form, starting from the blank form,
    [max_students] is never 0: an input that [parseInt] reads as 0 or
    cannot read is replaced by 50. *)
Theorem max_students_never_zero (changes : list (Field * string)) :
  max_students
    (fold_left (fun data change =>
                  handleInputChange parseInt (fst change) (snd change) data)
               changes blankForm) <> 0.
Proof.
  assert (H : forall data, max_students data <> 0 ->
    max_students
      (fold_left (fun data change =>
                    handleInputChange parseInt (fst change) (snd change) data)
                 changes data) <> 0).
  { induction changes as [|[field value] changes IH]; intros data Hd;
      [exact Hd|].
    simpl. apply IH. destruct field; simpl; try exact Hd.
    apply parsed_or_50_nonzero. }
  apply H. discriminate.
Qed.

(** X17.  The check "Please select an instructor" stops the untouched
    form, whose [instructor_id] is the number 0.  Once the select has been
    changed, the form holds the option's value as a string, and every
    non-empty string passes the check, the placeholder's value "0"
    included: with the other required fields filled in, the form is valid
    and [handleSubmit] sends the request with that value. *)
Theorem chosen_option_passes_check (value : string) (st : State) :
  value <> EmptyString ->
  blank trim (name (formData st)) = false ->
  blank trim (code (formData st)) = false ->
  blank trim (department (formData st)) = false ->
  blank trim (semester (formData st)) = false ->
  blank trim (academic_year (formData st)) = false ->
  editingCourse st = None ->
  (instructor_id (formData st) = Num 0 ->
   validateForm trim (formData st) = Some "Please select an instructor" /\
   handleSubmit trim true st = (st, [])) /\
  validateForm trim
    (handleInputChange parseInt f_instructor_id value (formData st)) = None /\
  snd (handleSubmit trim true
         {| showForm := showForm st; editingCourse := None;
            formData := handleInputChange parseInt f_instructor_id value
                          (formData st) |}) =
    [CreateCourse
       (handleInputChange parseInt f_instructor_id value (formData st));
     FetchData].
Proof.
  intros Hv Hn Hc Hd Hs Ha He.
  assert (Ht : JS.truthy_string value = true).
  { unfold JS.truthy_string. apply negb_true_iff, String.eqb_neq. exact Hv. }
  assert (Hvalid : validateForm trim
            (handleInputChange parseInt f_instructor_id value (formData st))
            = None).
  { unfold validateForm. simpl. rewrite Hn, Hc, Hd, Hs, Ha, Ht. reflexivity. }
  split; [|split; [exact Hvalid|]].
  - intros H0.
    assert (Hm : validateForm trim (formData st)
                 = Some "Please select an instructor").
    { unfold validateForm. rewrite Hn, Hc, H0. reflexivity. }
    split; [exact Hm|]. unfold handleSubmit. rewrite Hm. reflexivity.
  - unfold handleSubmit. simpl. rewrite Hvalid. reflexivity.
Qed.

(** X18.  Editing a course and saving it unchanged sends an update for
    that course's id with the course's own values, the optional
    description, schedule and room read as empty when absent; a resolved
    save then hides and blanks the form and refetches, a rejected one
    keeps the form as it was for another try.  This needs the course's
    required fields to be filled and its instructor id not to be 0. *)
Theorem edit_then_save (course : Course) (st : State) :
  blank trim (course_name course) = false ->
  blank trim (course_code course) = false ->
  course_instructor_id course <> 0 ->
  blank trim (course_department course) = false ->
  blank trim (course_semester course) = false ->
  blank trim (course_academic_year course) = false ->
  handleSubmit trim true (handleEdit course st) =
    ({| showForm := false; editingCourse := None; formData := blankForm |},
     [UpdateCourse (course_id course) (formData (handleEdit course st));
      FetchData]) /\
  handleSubmit trim false (handleEdit course st) =
    (handleEdit course st,
     [UpdateCourse (course_id course) (formData (handleEdit course st))]) /\
  description (formData (handleEdit course st)) =
    or_empty (course_description course) /\
  max_students (formData (handleEdit course st)) = course_max_students course.
Proof.
  intros Hn Hc Hi Hd Hs Ha.
  assert (Hvalid : validateForm trim (formData (handleEdit course st)) = None).
  { unfold validateForm. simpl. rewrite Hn, Hc, Hd, Hs, Ha.
    apply Z.eqb_neq in Hi. rewrite Hi. reflexivity. }
  unfold handleSubmit. rewrite Hvalid. repeat split.
Qed.

End BuiltinProps.

End CourseFormProps.

(** ** The student dashboard *)

Module StudentDashboardProps.
Import StudentDashboard.
Local Open Scope Z_scope.

(** X19.  [fetchDashboardData] ends with the spinner gone.  The dashboard
    is shown exactly when all four requests resolved, and then holds what
    the server sent; if any request is rejected the error screen replaces
    the whole page, the statistics are left as they were, and the requests
    after the rejected one are not sent: the requests sent are the four in
    order up to and including the first rejected one. *)
Theorem dashboard_all_or_error (userId : Z) (r : Responses) (st : State) :
  isLoading (fst (fetchDashboardData userId r st)) = false /\
  (screen (fst (fetchDashboardData userId r st)) = DashboardScreen <->
   all_resolved r = true) /\
  (all_resolved r = true ->
   Some (attendanceRecords (fst (fetchDashboardData userId r st)))
     = attendanceResponse r /\
   Some (courses (fst (fetchDashboardData userId r st))) = coursesResponse r /\
   Some (dashboardCourses (fst (fetchDashboardData userId r st)))
     = dashboardResponse r /\
   attendanceStats (fst (fetchDashboardData userId r st)) = statsResponse r) /\
  (all_resolved r = false ->
   screen (fst (fetchDashboardData userId r st)) = ErrorScreen /\
   attendanceStats (fst (fetchDashboardData userId r st)) = attendanceStats st) /\
  snd (fetchDashboardData userId r st) =
    match attendanceResponse r, coursesResponse r, dashboardResponse r with
    | None, _, _ => [GetUserAttendance userId]
    | Some _, None, _ => [GetUserAttendance userId; GetStudentCourses userId]
    | Some _, Some _, None =>
        [GetUserAttendance userId; GetStudentCourses userId;
         GetStudentDashboardCourses]
    | Some _, Some _, Some _ =>
        [GetUserAttendance userId; GetStudentCourses userId;
         GetStudentDashboardCourses; GetAttendanceStats userId]
    end.
Proof.
  unfold fetchDashboardData, all_resolved, screen.
  destruct (attendanceResponse r) as [a|];
    [destruct (coursesResponse r) as [c|];
     [destruct (dashboardResponse r) as [d|];
      [destruct (statsResponse r) as [s|]|]|]|];
    simpl;
    (split; [reflexivity|]);
    (split; [split; intros H; try discriminate H; reflexivity|]);
    (split; [intros H; try discriminate H; repeat split|]);
    (split; [intros H; try discriminate H; repeat split|]);
    reflexivity.
Qed.

(** X20.  The button of a course card sends a self-enroll request only
    for a course the student is not enrolled in and whose [can_enroll]
    flag is true, a self-unenroll request only for a course the student is
    enrolled in, always for the card's own course, and nothing at all when
    the student is not enrolled and [can_enroll] is false. *)
Theorem card_button_requests (course : Enrollment.DashboardCourse) (k : Z) :
  (In (SelfEnroll k) (clickCourseButton course) <->
   k = Enrollment.dc_id course /\ Enrollment.is_enrolled course = false /\
   Enrollment.can_enroll course = true) /\
  (In (SelfUnenroll k) (clickCourseButton course) <->
   k = Enrollment.dc_id course /\ Enrollment.is_enrolled course = true) /\
  (Enrollment.is_enrolled course = false ->
   Enrollment.can_enroll course = false ->
   clickCourseButton course = []).
Proof.
  unfold clickCourseButton, Enrollment.courseButton.
  destruct (Enrollment.is_enrolled course), (Enrollment.can_enroll course);
    simpl; (split; [split|split; [split|]]).
  all: try (intros [H|[]];
            first [discriminate H | injection H as <-; auto]; fail).
  all: try (intros []; fail).
  all: try (intros (Hk & H1 & H2);
            first [discriminate | subst; left; reflexivity]; fail).
  all: try (intros [Hk H1];
            first [discriminate | subst; left; reflexivity]; fail).
  all: try (intros H1 H2; first [discriminate | reflexivity]; fail).
Qed.

End StudentDashboardProps.

Lemma chosen_option_passes_check_witness :
  CourseManagement.validateForm Samples.no_trim
    (CourseManagement.handleInputChange Samples.not_a_number
       CourseManagement.f_instructor_id "0"
       (CourseManagement.formData Samples.typed_form)) = None.
Proof.
  refine (proj1 (proj2 (CourseFormProps.chosen_option_passes_check
            Samples.no_trim Samples.not_a_number "0" Samples.typed_form
            _ eq_refl eq_refl eq_refl eq_refl eq_refl eq_refl))).
  discriminate.
Defined.

Lemma edit_then_save_witness :
  CourseManagement.handleSubmit Samples.no_trim false
    (CourseManagement.handleEdit Samples.listed_course Samples.typed_form) =
  (CourseManagement.handleEdit Samples.listed_course Samples.typed_form,
   [CourseManagement.UpdateCourse 101
      (CourseManagement.formData
         (CourseManagement.handleEdit Samples.listed_course
            Samples.typed_form))]).
Proof.
  refine (proj1 (proj2 (CourseFormProps.edit_then_save Samples.no_trim
            Samples.listed_course Samples.typed_form
            eq_refl eq_refl _ eq_refl eq_refl eq_refl))).
  discriminate.
Defined.

Lemma dashboard_all_or_error_witness :
  StudentDashboard.screen
    (fst (StudentDashboard.fetchDashboardData 7 Samples.stats_rejected
            StudentDashboard.mounted)) = StudentDashboard.ErrorScreen.
Proof.
  exact (proj1 (proj1 (proj2 (proj2 (proj2
           (StudentDashboardProps.dashboard_all_or_error 7
              Samples.stats_rejected StudentDashboard.mounted))))
           eq_refl)).
Defined.

Lemma card_button_requests_witness :
  StudentDashboard.clickCourseButton Samples.closed_course = [].
Proof.
  exact (proj2 (proj2 (StudentDashboardProps.card_button_requests
                         Samples.closed_course 101))
               eq_refl eq_refl).
Defined.
